(** * heredity.py: exact inference over a family tree

    A shallow embedding of [src/heredity/heredity.py] and the properties of
    its inference engine.

    Modelling choices, all visible in the definitions below:
    - a Python [float] is an exact rational ([Q]); the decimal literals of
      the source are read as the decimal fractions they denote, and results
      are compared with [==] ([Qeq]).  Rounding is outside the model;
    - a Python [set] of names is a [gset string]; [list(s)] is [elements s],
      whose order is left unspecified, as Python's is;
    - a Python [dict] is an association list in insertion order ([dict]);
      a subscript [d[k]] is [dict_get], which raises [KeyError];
    - a Python value that is a name or [None] is an [option string];
    - exceptions are the [Raise] results of a small error monad. *)

From Stdlib Require Import ZArith QArith Qfield Lqa Lia.
From stdpp Require Import gmap strings list sets.

#[local] Set Warnings "-clear-no-such-hyp".

Open Scope Z_scope.
Open Scope Q_scope.
Open Scope string_scope.
Open Scope list_scope.
Open Scope stdpp_scope.

(** ** Exceptions *)

Inductive exn : Type :=
| KeyError
| ZeroDivisionError.

Inductive result (A : Type) : Type :=
| Ok (a : A)
| Raise (e : exn).

Arguments Ok {A} a.
Arguments Raise {A} e.

Definition bind {A B : Type} (c : result A) (k : A -> result B) : result B :=
  match c with
  | Ok a => k a
  | Raise e => Raise e
  end.

Notation "'let*' x ':=' c 'in' k" := (bind c (fun x => k))
  (at level 10, x pattern, c at level 100, k at level 200).

(** [for x in l: s = body(s, x)], stopping at the first exception. *)
Fixpoint for_each {A S : Type} (l : list A) (body : S -> A -> result S) (s : S)
  : result S :=
  match l with
  | [] => Ok s
  | x :: l' => let* s' := body s x in for_each l' body s'
  end.

(** [any(f(x) for x in l)]: stops at the first true element. *)
Fixpoint any_of {A : Type} (f : A -> result bool) (l : list A) : result bool :=
  match l with
  | [] => Ok false
  | x :: l' => let* b := f x in if b then Ok true else any_of f l'
  end.

(** ** Dictionaries *)

Definition dict (K V : Type) : Type := list (K * V).

Definition keys {K V : Type} (d : dict K V) : list K := map fst d.

Definition values {K V : Type} (d : dict K V) : list V := map snd d.

(** [d[k]] *)
Fixpoint dict_get {K V : Type} `{EqDecision K} (d : dict K V) (k : K) : result V :=
  match d with
  | [] => Raise KeyError
  | (k', v) :: d' => if decide (k' = k) then Ok v else dict_get d' k
  end.

(** [d[k] = v]: overwrites in place, or appends a new key. *)
Fixpoint dict_set {K V : Type} `{EqDecision K} (d : dict K V) (k : K) (v : V)
  : dict K V :=
  match d with
  | [] => [(k, v)]
  | (k', v') :: d' =>
      if decide (k' = k) then (k', v) :: d' else (k', v') :: dict_set d' k v
  end.

(** [d[k] += p] *)
Fixpoint dict_iadd {K : Type} `{EqDecision K} (d : dict K Q) (k : K) (p : Q)
  : result (dict K Q) :=
  match d with
  | [] => Raise KeyError
  | (k', v) :: d' =>
      if decide (k' = k) then Ok ((k', v + p) :: d')
      else let* d'' := dict_iadd d' k p in Ok ((k', v) :: d'')
  end.

(** [sum(d.values())]: Python's [sum] starts from 0 and adds from the left. *)
Definition dict_sum {K : Type} (d : dict K Q) : Q :=
  fold_left Qplus (values d) 0.

(** ** The model constants (lines 5-37) *)

Record Probs : Type := {
  PROBS_gene : dict Z Q;
  PROBS_trait : dict Z (dict bool Q);
  PROBS_mutation : Q
}.

Definition PROBS : Probs := {|
  PROBS_gene := [(2%Z, 0.01); (1%Z, 0.03); (0%Z, 0.96)];
  PROBS_trait :=
    [(2%Z, [(true, 0.65); (false, 0.35)]);
     (1%Z, [(true, 0.56); (false, 0.44)]);
     (0%Z, [(true, 0.01); (false, 0.99)])];
  PROBS_mutation := 0.01
|}.

(** ** The family model *)

Record Person : Type := {
  name : string;
  mother : option string;
  father : option string;
  trait : option bool
}.

(** One row of the CSV file, as [csv.DictReader] yields it. *)
Record Row : Type := {
  row_name : string;
  row_mother : string;
  row_father : string;
  row_trait : string
}.

(** [s or None] for a string [s]: the empty string is falsy. *)
Definition or_None (s : string) : option string :=
  if decide (s = "") then None else Some s.

(** The conditional expression of lines 111-112. *)
Definition parse_trait (s : string) : option bool :=
  if decide (s = "1") then Some true
  else if decide (s = "0") then Some false
  else None.

(** The body of the reader loop of [load_data] (lines 106-113). *)
Definition load_row (data : dict string Person) (row : Row) : dict string Person :=
  let name := row_name row in
  dict_set data name
    {| name := name;
       mother := or_None (row_mother row);
       father := or_None (row_father row);
       trait := parse_trait (row_trait row) |}.

(** [load_data], from the rows of the file. *)
Definition load_data (rows : list Row) : dict string Person :=
  fold_left load_row rows [].

(** ** Subsets *)

(** [itertools.combinations(l, r)]: the [r]-element subsequences of [l], in
    lexicographic order of positions. *)
Fixpoint combinations {A : Type} (l : list A) (r : nat) : list (list A) :=
  match r, l with
  | O, _ => [[]]
  | S _, [] => []
  | S r', x :: l' => map (cons x) (combinations l' r') ++ combinations l' r
  end.

(** [powerset] (lines 117-126). *)
Definition powerset (s : gset string) : list (gset string) :=
  let s := elements s in
  map list_to_set
    (concat (map (fun r => combinations s r) (seq 0 (length s + 1)))).

(** ** The joint probability (lines 129-189) *)

(** [x in s] for [x] a name or [None], [s] a set of names. *)
Definition py_in (x : option string) (s : gset string) : bool :=
  match x with
  | Some n => bool_decide (n ∈ s)
  | None => false
  end.

Definition get_trait (person : string) (have_trait : gset string) : bool :=
  if py_in (Some person) have_trait then true else false.

Definition get_nbr_genes (person : option string) (one_gene two_genes : gset string)
  : Z :=
  if py_in person two_genes then 2%Z
  else if py_in person one_gene then 1%Z
  else 0%Z.

Definition get_parent_prob (parent : option string) (one_gene two_genes : gset string)
  : Q :=
  let nbr_genes := get_nbr_genes parent one_gene two_genes in
  if decide (nbr_genes = 0%Z) then 0.01
  else if decide (nbr_genes = 1%Z) then 0.5
  else 0.99.

(** The [if]/[elif]/[else] of lines 152-157. *)
Definition child_gene_prob (this_genes : Z) (prob_mother prob_father : Q) : Q :=
  if decide (this_genes = 0%Z) then (1 - prob_mother) * (1 - prob_father)
  else if decide (this_genes = 1%Z) then
    (1 - prob_mother) * prob_father + prob_mother * (1 - prob_father)
  else prob_father * prob_mother.

(** The body of the loop of [joint_probability] (lines 145-163), returning
    the factor [gene_prob * trait_prob] of one person.  [people[person]] is
    looked up once here; the source repeats the same subscript. *)
Definition person_factor (people : dict string Person)
    (one_gene two_genes have_trait : gset string) (person : string) : result Q :=
  let this_genes := get_nbr_genes (Some person) one_gene two_genes in
  let* record := dict_get people person in
  let* gene_prob :=
    match mother record with
    | None => dict_get (PROBS_gene PROBS) this_genes
    | Some _ =>
        let prob_mother := get_parent_prob (mother record) one_gene two_genes in
        let prob_father := get_parent_prob (father record) one_gene two_genes in
        Ok (child_gene_prob this_genes prob_mother prob_father)
    end in
  let trait := get_trait person have_trait in
  let* by_trait := dict_get (PROBS_trait PROBS) this_genes in
  let* trait_prob := dict_get by_trait trait in
  Ok (gene_prob * trait_prob).

Definition joint_probability (people : dict string Person)
    (one_gene two_genes have_trait : gset string) : result Q :=
  for_each (keys people)
    (fun joint_p person =>
       let* factor := person_factor people one_gene two_genes have_trait person in
       Ok (joint_p * factor))
    1.

(** ** Accumulation (lines 192-204) *)

Record Belief : Type := {
  gene_dist : dict Z Q;
  trait_dist : dict bool Q
}.

(** The body of the loop of [update], on the entry of one person. *)
Definition update_person (one_gene two_genes have_trait : gset string) (p : Q)
    (person : string) (belief : Belief) : result Belief :=
  let nbr_genes := get_nbr_genes (Some person) one_gene two_genes in
  let* gene := dict_iadd (gene_dist belief) nbr_genes p in
  let trait := get_trait person have_trait in
  let* trait := dict_iadd (trait_dist belief) trait p in
  Ok {| gene_dist := gene; trait_dist := trait |}.

(** [update]: every entry of [probabilities] is updated in place, in the
    order of the dictionary. *)
Fixpoint update (probabilities : dict string Belief)
    (one_gene two_genes have_trait : gset string) (p : Q)
  : result (dict string Belief) :=
  match probabilities with
  | [] => Ok []
  | (person, belief) :: rest =>
      let* belief' := update_person one_gene two_genes have_trait p person belief in
      let* rest' := update rest one_gene two_genes have_trait p in
      Ok ((person, belief') :: rest')
  end.

(** ** Normalization (lines 207-216) *)

(** [a / b] on numbers: division by zero raises. *)
Definition py_div (a b : Q) : result Q :=
  if Qeq_bool b 0 then Raise ZeroDivisionError else Ok (a / b).

(** [for value in values: values[value] /= this_sum] *)
Fixpoint divide_all {K : Type} (values : dict K Q) (this_sum : Q)
  : result (dict K Q) :=
  match values with
  | [] => Ok []
  | (value, v) :: rest =>
      let* v' := py_div v this_sum in
      let* rest' := divide_all rest this_sum in
      Ok ((value, v') :: rest')
  end.

Definition normalize_dist {K : Type} (values : dict K Q) : result (dict K Q) :=
  let this_sum := dict_sum values in
  divide_all values this_sum.

(** The two distributions of one person: ["gene"], then ["trait"]. *)
Definition normalize_person (dists : Belief) : result Belief :=
  let* gene := normalize_dist (gene_dist dists) in
  let* trait := normalize_dist (trait_dist dists) in
  Ok {| gene_dist := gene; trait_dist := trait |}.

Fixpoint normalize (probabilities : dict string Belief)
  : result (dict string Belief) :=
  match probabilities with
  | [] => Ok []
  | (person, dists) :: rest =>
      let* dists' := normalize_person dists in
      let* rest' := normalize rest in
      Ok ((person, dists') :: rest')
  end.

(** ** The driver (lines 46-83) *)

(** The dictionary comprehension of lines 47-60. *)
Definition init_belief : Belief := {|
  gene_dist := [(2%Z, 0); (1%Z, 0); (0%Z, 0)];
  trait_dist := [(true, 0); (false, 0)]
|}.

Definition init_probabilities (people : dict string Person) : dict string Belief :=
  map (fun person => (person, init_belief)) (keys people).

(** [set(people)] *)
Definition names_of (people : dict string Person) : gset string :=
  list_to_set (keys people).

(** The generator expression of lines 68-69, for one person. *)
Definition violates (people : dict string Person) (have_trait : gset string)
    (person : string) : result bool :=
  let* record := dict_get people person in
  Ok (match trait record with
      | None => false
      | Some observed =>
          negb (Bool.eqb observed (py_in (Some person) have_trait))
      end).

(** Lines 67-71. *)
Definition fails_evidence (people : dict string Person) (names have_trait : gset string)
  : result bool :=
  any_of (violates people have_trait) (elements names).

(** Lines 79-80: one complete hypothesis. *)
Definition accumulate (people : dict string Person) (have_trait one_gene two_genes : gset string)
    (probabilities : dict string Belief) : result (dict string Belief) :=
  let* p := joint_probability people one_gene two_genes have_trait in
  update probabilities one_gene two_genes have_trait p.

(** Lines 76-80: the two loops over the gene sets. *)
Definition gene_loops (people : dict string Person) (names have_trait : gset string)
    (probabilities : dict string Belief) : result (dict string Belief) :=
  for_each (powerset names)
    (fun probabilities one_gene =>
       for_each (powerset (names ∖ one_gene))
         (fun probabilities two_genes =>
            accumulate people have_trait one_gene two_genes probabilities)
         probabilities)
    probabilities.

(** Lines 64-80: the body of the loop over the trait sets. *)
Definition trait_step (people : dict string Person) (names : gset string)
    (probabilities : dict string Belief) (have_trait : gset string)
  : result (dict string Belief) :=
  let* fails := fails_evidence people names have_trait in
  if fails then Ok probabilities
  else gene_loops people names have_trait probabilities.

Definition main_loop (people : dict string Person) (probabilities : dict string Belief)
  : result (dict string Belief) :=
  let names := names_of people in
  for_each (powerset names) (trait_step people names) probabilities.

(** [main] from the loaded population to the normalized beliefs it prints. *)
Definition infer (people : dict string Person) : result (dict string Belief) :=
  let probabilities := init_probabilities people in
  let* probabilities := main_loop people probabilities in
  normalize probabilities.

Definition main (rows : list Row) : result (dict string Belief) :=
  let people := load_data rows in
  infer people.

(** ** The model as the specification words it

    These definitions follow the specification's sentences, not the code;
    the theorems below compare them with the definitions above. *)

(** The hypothesized gene count of a person: in [one] means 1, in [two]
    means 2, in neither means 0. *)
Definition spec_gene_count (person : string) (one two : gset string) : Z :=
  if bool_decide (person ∈ one) then 1%Z
  else if bool_decide (person ∈ two) then 2%Z
  else 0%Z.

(** The unconditional prior: P(2)=0.01, P(1)=0.03, P(0)=0.96. *)
Definition spec_prior (count : Z) : Q :=
  match count with
  | 2%Z => 0.01
  | 1%Z => 0.03
  | _ => 0.96
  end.

(** The transmission probability of a parent: m for 0 copies, 0.5 for 1
    copy, 1 - m for 2 copies, with m = 0.01. *)
Definition spec_transmission (count : Z) : Q :=
  let m := 0.01 in
  match count with
  | 0%Z => m
  | 1%Z => 0.5
  | _ => 1 - m
  end.

(** The three child formulas. *)
Definition spec_child (count : Z) (p_m p_f : Q) : Q :=
  match count with
  | 0%Z => (1 - p_m) * (1 - p_f)
  | 1%Z => (1 - p_m) * p_f + p_m * (1 - p_f)
  | _ => p_m * p_f
  end.

(** The trait-expression table. *)
Definition spec_trait_table (count : Z) (has_trait : bool) : Q :=
  match count, has_trait with
  | 2%Z, true => 0.65
  | 2%Z, false => 0.35
  | 1%Z, true => 0.56
  | 1%Z, false => 0.44
  | _, true => 0.01
  | _, false => 0.99
  end.

(** The gene factor of an individual: the prior when parentless, the child
    formula on the parents' transmission probabilities otherwise. *)
Definition spec_gene_factor (one two : gset string) (person : string)
    (individual : Person) : Q :=
  match mother individual, father individual with
  | Some m, Some f =>
      spec_child (spec_gene_count person one two)
        (spec_transmission (spec_gene_count m one two))
        (spec_transmission (spec_gene_count f one two))
  | _, _ => spec_prior (spec_gene_count person one two)
  end.

Definition spec_factor (one two have_trait : gset string)
    (entry : string * Person) : Q :=
  spec_gene_factor one two entry.1 entry.2
  * spec_trait_table (spec_gene_count entry.1 one two)
      (bool_decide (entry.1 ∈ have_trait)).

(** The product over all individuals. *)
Definition spec_joint (people : dict string Person) (one two have_trait : gset string)
  : Q :=
  fold_right Qmult 1 (map (spec_factor one two have_trait) people).

(** The data-model invariant on parents: both present or both absent. *)
Definition both_or_neither (people : dict string Person) : Prop :=
  Forall (fun entry => mother entry.2 = None <-> father entry.2 = None) people.

(** Evidence consistency: membership in the trait hypothesis matches every
    known observation. *)
Definition admissible (people : dict string Person) (have_trait : gset string) : Prop :=
  forall person individual observed,
    dict_get people person = Ok individual ->
    trait individual = Some observed ->
    (person ∈ have_trait <-> observed = true).

(** The pairs [(one_gene, two_genes)] that the two loops of lines 76-77
    visit, in order. *)
Definition gene_hypotheses (names : gset string) : list (gset string * gset string) :=
  powerset names ≫= fun one_gene =>
    (fun two_genes => (one_gene, two_genes)) <$> powerset (names ∖ one_gene).

(** All ways to put the names of a list, one after the other, in neither,
    the first or the second set. *)
Fixpoint ternary (l : list string) : list (gset string * gset string) :=
  match l with
  | [] => [(∅, ∅)]
  | x :: l' =>
      ternary l' ≫= fun pair =>
        [(pair.1, pair.2); ({[x]} ∪ pair.1, pair.2); (pair.1, {[x]} ∪ pair.2)]
  end.

(** A belief in the shape of lines 49-57 whose buckets are non-negative and
    add up to [mass] in each of the two tables. *)
Definition belief_mass (mass : Q) (belief : Belief) : Prop :=
  exists g2 g1 g0 t1 t0,
    belief = {| gene_dist := [(2%Z, g2); (1%Z, g1); (0%Z, g0)];
                trait_dist := [(true, t1); (false, t0)] |}
    /\ 0 <= g2 /\ 0 <= g1 /\ 0 <= g0 /\ 0 <= t1 /\ 0 <= t0
    /\ g2 + g1 + g0 == mass /\ t1 + t0 == mass.

(** The trait bucket opposite to a known observation holds no mass. *)
Definition opposite_empty (people : dict string Person) (entry : string * Belief)
  : Prop :=
  forall individual observed,
    dict_get people entry.1 = Ok individual ->
    trait individual = Some observed ->
    dict_get (trait_dist entry.2) (negb observed) = Ok 0.

(** The beliefs after hypotheses of total probability [mass] have been
    accumulated. *)
Definition accumulated (people : dict string Person) (mass : Q)
    (probabilities : dict string Belief) : Prop :=
  keys probabilities = keys people
  /\ Forall (fun entry => belief_mass mass entry.2 /\ opposite_empty people entry)
       probabilities.

(** A distribution: entries in [0,1] that sum to 1. *)
Definition normalized {K : Type} (d : dict K Q) : Prop :=
  dict_sum d == 1 /\ Forall (fun bucket => 0 <= bucket.2 <= 1) d.

(** The individuals observed to have the trait. *)
Definition observed_having (people : dict string Person) (person : string) : bool :=
  match dict_get people person with
  | Ok individual =>
      match trait individual with
      | Some true => true
      | _ => false
      end
  | Raise _ => false
  end.

Definition observed_true (people : dict string Person) : gset string :=
  list_to_set (List.filter (observed_having people) (keys people)).

(** A parent reference is malformed when it is present and the two
    references of the individual do not both resolve to individuals of the
    population; this covers a single specified parent. *)
Definition resolves (people : dict string Person) (parent : option string) : bool :=
  match parent with
  | Some n => bool_decide (n ∈ keys people)
  | None => false
  end.

Definition malformed_relationship (people : dict string Person) : bool :=
  existsb
    (fun entry =>
       (bool_decide (is_Some (mother entry.2)) || bool_decide (is_Some (father entry.2)))
       && negb (resolves people (mother entry.2) && resolves people (father entry.2)))
    people.

(** ** Example populations *)

(** The family of the course's data file: two parents with observed traits
    and their child. *)
Definition family_rows : list Row := [
  {| row_name := "Harry"; row_mother := "Lily"; row_father := "James"; row_trait := "" |};
  {| row_name := "James"; row_mother := ""; row_father := ""; row_trait := "1" |};
  {| row_name := "Lily"; row_mother := ""; row_father := ""; row_trait := "0" |}
].

Definition family : dict string Person := load_data family_rows.

(** A couple without recorded parents; one observation. *)
Definition couple : dict string Person := [
  ("Arthur", {| name := "Arthur"; mother := None; father := None; trait := Some true |});
  ("Molly", {| name := "Molly"; mother := None; father := None; trait := None |})
].

(** One individual whose mother is not in the population and whose father
    is not recorded. *)
Definition orphan : dict string Person := [
  ("Child", {| name := "Child"; mother := Some "Ghost"; father := None; trait := None |})
].



(** The beliefs of a run with every fraction in lowest terms, for display. *)
Definition reduce_dist {K : Type} (d : dict K Q) : dict K Q :=
  map (fun bucket => (bucket.1, Qred bucket.2)) d.

Definition reduced (run : result (dict string Belief))
  : list (string * dict Z Q * dict bool Q) :=
  match run with
  | Ok probabilities =>
      map (fun entry =>
             (entry.1, reduce_dist (gene_dist entry.2), reduce_dist (trait_dist entry.2)))
        probabilities
  | Raise _ => []
  end.

(** ** Auxiliary enumerations *)

(** All subsequences of a list: each element is taken or left. *)
Fixpoint subsequences {A : Type} (l : list A) : list (list A) :=
  match l with
  | [] => [[]]
  | x :: l' => map (cons x) (subsequences l') ++ subsequences l'
  end.

(** The same individuals with the observations erased and the names
    replaced by the keys. *)
Definition parents_only (people : dict string Person) : dict string Person :=
  map (fun entry =>
         (entry.1, {| name := entry.1; mother := mother entry.2;
                      father := father entry.2; trait := None |}))
    people.

(** A table all of whose entries can be divided by [this_sum]. *)
Definition divisible_by {K : Type} (d : dict K Q) (this_sum : Q) : Prop :=
  d = [] \/ ~ this_sum == 0.

(** A table that [normalize] can divide: it is empty or its total is not
    zero. *)
Definition divisible {K : Type} (d : dict K Q) : Prop :=
  divisible_by d (dict_sum d).

(** Raw counts for one individual, to be normalized. *)
Definition tally : dict string Belief := [
  ("Arthur", {| gene_dist := [(2%Z, 1); (1%Z, 1); (0%Z, 2)];
                trait_dist := [(true, 1); (false, 3)] |})
].

(** ** The hypotheses of a run *)

(** The evidence test of lines 67-73 lets the trait set through. *)
Definition passes (people : dict string Person) (have_trait : gset string) : bool :=
  match fails_evidence people (names_of people) have_trait with
  | Ok false => true
  | _ => false
  end.

(** The trait sets for which the body of the outer loop runs its gene
    loops, in order. *)
Definition admissible_sets (people : dict string Person) : list (gset string) :=
  filter (fun have_trait => passes people have_trait = true)
    (powerset (names_of people)).

(** The complete hypotheses [(have_trait, (one_gene, two_genes))] of a run,
    in the order of the three loops. *)
Definition hypotheses (people : dict string Person)
  : list (gset string * (gset string * gset string)) :=
  admissible_sets people ≫= fun have_trait =>
    (fun pair => (have_trait, pair)) <$> gene_hypotheses (names_of people).

(** The individuals whose trait is not observed. *)
Definition trait_unknown (people : dict string Person) (person : string) : bool :=
  match dict_get people person with
  | Ok individual =>
      match trait individual with
      | None => true
      | Some _ => false
      end
  | Raise _ => false
  end.

Definition unknown_names (people : dict string Person) : gset string :=
  list_to_set (List.filter (trait_unknown people) (keys people)).

(** The joint probability of a complete hypothesis. *)
Definition joint_value (people : dict string Person)
    (hypothesis : gset string * (gset string * gset string)) : Q :=
  match joint_probability people hypothesis.2.1 hypothesis.2.2 hypothesis.1 with
  | Ok p => p
  | Raise _ => 0
  end.

Definition Qsum (l : list Q) : Q := fold_right Qplus 0 l.

(** The total probability of the hypotheses of a list in which a person has
    a given gene count, respectively a given trait value. *)
Definition gene_mass (people : dict string Person)
    (hs : list (gset string * (gset string * gset string)))
    (person : string) (count : Z) : Q :=
  Qsum
    (map (fun hypothesis =>
            if decide (get_nbr_genes (Some person) hypothesis.2.1 hypothesis.2.2 = count)
            then joint_value people hypothesis else 0)
       hs).

Definition trait_mass (people : dict string Person)
    (hs : list (gset string * (gset string * gset string)))
    (person : string) (value : bool) : Q :=
  Qsum
    (map (fun hypothesis =>
            if decide (get_trait person hypothesis.1 = value)
            then joint_value people hypothesis else 0)
       hs).

Definition total_mass (people : dict string Person)
    (hs : list (gset string * (gset string * gset string))) : Q :=
  Qsum (map (joint_value people) hs).

(** The beliefs of one individual after the hypotheses [hs]: the five
    buckets of lines 49-57, each holding the mass of its value. *)
Definition holds_masses (people : dict string Person)
    (hs : list (gset string * (gset string * gset string)))
    (entry : string * Belief) : Prop :=
  exists g2 g1 g0 t1 t0,
    entry.2 = {| gene_dist := [(2%Z, g2); (1%Z, g1); (0%Z, g0)];
                 trait_dist := [(true, t1); (false, t0)] |}
    /\ g2 == gene_mass people hs entry.1 2
    /\ g1 == gene_mass people hs entry.1 1
    /\ g0 == gene_mass people hs entry.1 0
    /\ t1 == trait_mass people hs entry.1 true
    /\ t0 == trait_mass people hs entry.1 false.

(** * Properties *)

(** ** The error monad and the loops *)

Lemma bind_Ok {A B : Type} (c : result A) (k : A -> result B) (b : B) :
  bind c k = Ok b <-> exists a, c = Ok a /\ k a = Ok b.
Proof.
  destruct c as [a|e]; simpl.
  - split; [eauto | intros (a' & [= <-] & H); exact H].
  - split; [discriminate | intros (a' & [=] & _)].
Qed.

Lemma for_each_app {A S : Type} (l1 l2 : list A) (body : S -> A -> result S) (s : S) :
  for_each (l1 ++ l2) body s = let* s' := for_each l1 body s in for_each l2 body s'.
Proof.
  revert s. induction l1 as [|x l1 IH]; intros s; simpl; [reflexivity|].
  destruct (body s x) as [s'|e]; simpl; [apply IH | reflexivity].
Qed.

Lemma for_each_ext {A S : Type} (l : list A) (f g : S -> A -> result S) (s : S) :
  (forall s x, x ∈ l -> f s x = g s x) -> for_each l f s = for_each l g s.
Proof.
  revert s. induction l as [|x l IH]; intros s H; simpl; [reflexivity|].
  rewrite H by left. destruct (g s x); simpl; [|reflexivity].
  apply IH. intros s' y Hy. apply H. by right.
Qed.

(** ** Dictionaries *)

Section Dict.
Context {K V : Type} `{EqDecision K}.
Implicit Types (d : dict K V) (k : K) (v : V).

Lemma dict_get_Ok_elem d k v : dict_get d k = Ok v -> (k, v) ∈ d.
Proof.
  induction d as [|[k' v'] d IH]; simpl; [discriminate|].
  case_decide as Hk.
  - intros [= ->]. subst. left.
  - intros H. right. auto.
Qed.

Lemma dict_get_keys d k : k ∈ keys d -> exists v, dict_get d k = Ok v.
Proof.
  induction d as [|[k' v'] d IH]; simpl.
  - intros H. inversion H.
  - intros H. case_decide as Hk; [eauto|].
    apply IH. apply elem_of_cons in H as [H|H]; [congruence | exact H].
Qed.

Lemma dict_get_elem d k v : NoDup (keys d) -> (k, v) ∈ d -> dict_get d k = Ok v.
Proof.
  induction d as [|[k' v'] d IH]; simpl; intros Hnd Hin.
  - inversion Hin.
  - apply NoDup_cons in Hnd as [Hk' Hnd].
    apply elem_of_cons in Hin as [[= -> ->]|Hin].
    + by rewrite decide_True.
    + rewrite decide_False; [auto|].
      intros ->. apply Hk'. unfold keys.
      apply list_elem_of_fmap. by exists (k, v).
Qed.

Lemma dict_get_set_eq d k v : dict_get (dict_set d k v) k = Ok v.
Proof.
  induction d as [|[k' v'] d IH]; simpl.
  - by rewrite decide_True.
  - case_decide as Hk; simpl.
    + by rewrite decide_True.
    + by rewrite decide_False.
Qed.

Lemma keys_dict_set d k v :
  keys (dict_set d k v) = if decide (k ∈ keys d) then keys d else keys d ++ [k].
Proof.
  unfold keys. induction d as [|[k' v'] d IH]; simpl; [reflexivity|].
  destruct (decide (k' = k)) as [->|Hk]; simpl.
  - rewrite decide_True by left. reflexivity.
  - rewrite IH. destruct (decide (k ∈ map fst d)) as [Hin|Hin].
    + rewrite decide_True by (by right). reflexivity.
    + rewrite decide_False; [reflexivity|].
      intros [->|?]%elem_of_cons; [by apply Hk | by apply Hin].
Qed.
End Dict.

(** ** Gene counts and per-person factors *)

Lemma get_nbr_genes_range (person : option string) (one_gene two_genes : gset string) :
  get_nbr_genes person one_gene two_genes = 0%Z
  \/ get_nbr_genes person one_gene two_genes = 1%Z
  \/ get_nbr_genes person one_gene two_genes = 2%Z.
Proof.
  unfold get_nbr_genes.
  destruct (py_in person two_genes), (py_in person one_gene); auto.
Qed.

Lemma get_nbr_genes_spec (person : string) (one_gene two_genes : gset string) :
  one_gene ## two_genes ->
  get_nbr_genes (Some person) one_gene two_genes
  = spec_gene_count person one_gene two_genes.
Proof.
  intros Hdisj. unfold get_nbr_genes, spec_gene_count, py_in.
  repeat case_bool_decide; try reflexivity.
  exfalso. set_solver.
Qed.

Lemma get_parent_prob_spec (parent : string) (one_gene two_genes : gset string) :
  one_gene ## two_genes ->
  get_parent_prob (Some parent) one_gene two_genes
  == spec_transmission (spec_gene_count parent one_gene two_genes).
Proof.
  intros Hdisj. unfold get_parent_prob. rewrite get_nbr_genes_spec by done.
  unfold spec_gene_count. repeat case_bool_decide; reflexivity.
Qed.

Lemma child_gene_prob_spec (count : Z) (p_m p_f : Q) :
  child_gene_prob count p_m p_f == spec_child count p_m p_f.
Proof.
  unfold child_gene_prob, spec_child.
  repeat case_decide; subst; try reflexivity.
  destruct count as [|[]|]; try congruence; ring.
Qed.

#[local] Instance child_gene_prob_proper (count : Z) :
  Proper (Qeq ==> Qeq ==> Qeq) (child_gene_prob count).
Proof.
  intros a a' Ha b b' Hb. unfold child_gene_prob.
  repeat case_decide; rewrite Ha, Hb; reflexivity.
Qed.

(** Every person of the population has a factor, and it is positive. *)
Lemma person_factor_pos (people : dict string Person)
    (one_gene two_genes have_trait : gset string) (person : string) (record : Person) :
  dict_get people person = Ok record ->
  exists factor,
    person_factor people one_gene two_genes have_trait person = Ok factor
    /\ 0 < factor.
Proof.
  intros Hget. unfold person_factor. rewrite Hget. simpl bind.
  unfold get_trait, get_parent_prob, get_nbr_genes.
  destruct (py_in (Some person) two_genes), (py_in (Some person) one_gene),
    (py_in (Some person) have_trait);
    (destruct (mother record) as [m|];
     [ destruct (py_in (Some m) two_genes), (py_in (Some m) one_gene),
         (py_in (father record) two_genes), (py_in (father record) one_gene)
     | ]);
    (eexists; split; [reflexivity | reflexivity]).
Qed.

Lemma spec_gene_count_range (person : string) (one two : gset string) :
  spec_gene_count person one two = 0%Z
  \/ spec_gene_count person one two = 1%Z
  \/ spec_gene_count person one two = 2%Z.
Proof. unfold spec_gene_count. repeat case_bool_decide; auto. Qed.

(** Under the data-model invariants the factor is the specification's. *)
Lemma person_factor_spec (people : dict string Person)
    (one_gene two_genes have_trait : gset string) (person : string) (record : Person) :
  one_gene ## two_genes ->
  (mother record = None <-> father record = None) ->
  dict_get people person = Ok record ->
  exists factor,
    person_factor people one_gene two_genes have_trait person = Ok factor
    /\ factor == spec_factor one_gene two_genes have_trait (person, record).
Proof.
  intros Hdisj Hboth Hget. unfold person_factor. rewrite Hget. simpl bind.
  unfold spec_factor, spec_gene_factor, get_trait, py_in. simpl fst. simpl snd.
  rewrite get_nbr_genes_spec by done.
  destruct (mother record) as [m|] eqn:Hm, (father record) as [f|] eqn:Hf;
    try (destruct Hboth as [H1 H2];
         first [discriminate (H1 eq_refl) | discriminate (H2 eq_refl)]);
    destruct (spec_gene_count_range person one_gene two_genes) as [Hg|[Hg|Hg]];
    rewrite !Hg; destruct (bool_decide (person ∈ have_trait));
    (eexists; split; [reflexivity|]);
    rewrite ?(get_parent_prob_spec m), ?(get_parent_prob_spec f),
      ?child_gene_prob_spec by done;
    reflexivity.
Qed.

(** ** The joint probability *)

Lemma joint_loop_pos (people : dict string Person)
    (one_gene two_genes have_trait : gset string) (l : list string) (joint_p : Q) :
  Forall (fun person => person ∈ keys people) l ->
  0 < joint_p ->
  exists p,
    for_each l
      (fun joint_p person =>
         let* factor := person_factor people one_gene two_genes have_trait person in
         Ok (joint_p * factor))
      joint_p = Ok p
    /\ 0 < p.
Proof.
  intros Hl. revert joint_p.
  induction Hl as [|person l Hin _ IH]; intros joint_p Hpos; simpl.
  - eauto.
  - destruct (dict_get_keys people person Hin) as [record Hget].
    destruct (person_factor_pos people one_gene two_genes have_trait person record Hget)
      as (factor & -> & Hfactor).
    simpl. apply IH. by apply Qmult_lt_0_compat.
Qed.

Lemma joint_probability_pos (people : dict string Person)
    (one_gene two_genes have_trait : gset string) :
  exists p, joint_probability people one_gene two_genes have_trait = Ok p /\ 0 < p.
Proof.
  apply joint_loop_pos; [|reflexivity].
  by apply Forall_forall.
Qed.

Lemma joint_loop_spec (people entries : dict string Person)
    (one_gene two_genes have_trait : gset string) (joint_p : Q) :
  one_gene ## two_genes ->
  both_or_neither entries ->
  Forall (fun entry => dict_get people entry.1 = Ok entry.2) entries ->
  exists p,
    for_each (keys entries)
      (fun joint_p person =>
         let* factor := person_factor people one_gene two_genes have_trait person in
         Ok (joint_p * factor))
      joint_p = Ok p
    /\ p == joint_p * spec_joint entries one_gene two_genes have_trait.
Proof.
  intros Hdisj Hboth Hget. revert joint_p.
  induction entries as [|[person record] entries IH]; intros joint_p; simpl.
  - exists joint_p. split; [reflexivity|]. unfold spec_joint. simpl. ring.
  - apply Forall_cons in Hboth as [Hb Hboth]. apply Forall_cons in Hget as [Hg Hget].
    destruct (person_factor_spec people one_gene two_genes have_trait person record
                Hdisj Hb Hg) as (factor & -> & Hfactor).
    simpl. destruct (IH Hboth Hget (joint_p * factor)) as (p & -> & Hp).
    exists p. split; [reflexivity|].
    rewrite Hp, Hfactor. unfold spec_joint. simpl. ring.
Qed.

(** C1. For a population (a dictionary: no repeated key) whose individuals
    have both parents or none, and a hypothesis with disjoint [one_gene] and
    [two_genes], [joint_probability] returns the product over all
    individuals of the gene factor times the trait factor of the
    specification: the prior 0.01/0.03/0.96 for a parentless individual,
    the three child formulas on the parents' transmission probabilities
    (0.01, 0.5, 1 - 0.01) otherwise, and the trait table entry of the
    individual's own gene count and trait. *)
Theorem joint_probability_is_product (people : dict string Person)
    (one_gene two_genes have_trait : gset string) :
  NoDup (keys people) ->
  both_or_neither people ->
  one_gene ## two_genes ->
  exists p,
    joint_probability people one_gene two_genes have_trait = Ok p
    /\ p == spec_joint people one_gene two_genes have_trait.
Proof.
  intros Hnd Hboth Hdisj. unfold joint_probability.
  destruct (joint_loop_spec people people one_gene two_genes have_trait 1 Hdisj Hboth)
    as (p & Hp & Heq).
  - apply Forall_forall. intros [person record] Hin. simpl.
    by apply dict_get_elem.
  - exists p. split; [exact Hp|]. rewrite Heq. ring.
Qed.

Lemma family_keys_NoDup : NoDup (keys family).
Proof. apply (bool_decide_unpack _). vm_compute. exact I. Defined.

Lemma family_both_or_neither : both_or_neither family.
Proof. repeat constructor; simpl; intros; discriminate. Defined.

Lemma joint_probability_is_product_witness :
  exists p,
    joint_probability family {["Harry"]} {["James"]} {["James"]} = Ok p
    /\ p == spec_joint family {["Harry"]} {["James"]} {["James"]}.
Proof.
  apply (joint_probability_is_product family {["Harry"]} {["James"]} {["James"]}).
  - exact family_keys_NoDup.
  - exact family_both_or_neither.
  - apply (bool_decide_unpack _). vm_compute. exact I.
Defined.

(** C4. For transmission probabilities in [0,1] the three child gene-count
    probabilities computed by [joint_probability] (lines 152-157) sum to 1. *)
Theorem child_gene_prob_sum (prob_mother prob_father : Q) :
  0 <= prob_mother <= 1 ->
  0 <= prob_father <= 1 ->
  child_gene_prob 0 prob_mother prob_father
  + child_gene_prob 1 prob_mother prob_father
  + child_gene_prob 2 prob_mother prob_father == 1.
Proof.
  intros _ _. unfold child_gene_prob.
  repeat case_decide; try congruence. ring.
Qed.

Lemma child_gene_prob_sum_witness :
  (0 <= 0.01 <= 1) /\ (0 <= 0.5 <= 1)
  /\ child_gene_prob 0 0.01 0.5 + child_gene_prob 1 0.01 0.5
     + child_gene_prob 2 0.01 0.5 == 1.
Proof.
  assert (H1 : 0 <= 0.01 <= 1) by (split; discriminate).
  assert (H2 : 0 <= 0.5 <= 1) by (split; discriminate).
  exact (conj H1 (conj H2 (child_gene_prob_sum 0.01 0.5 H1 H2))).
Defined.

(** C7, as stated, fails: the individual of [orphan] has a mother who is
    not in the population and no father, and [joint_probability] returns a
    number instead of aborting. *)
Lemma joint_probability_orphan :
  malformed_relationship orphan = true
  /\ joint_probability orphan ∅ ∅ ∅ = Ok 0.970299
  /\ ~ exists e, joint_probability orphan ∅ ∅ ∅ = Raise e.
Proof.
  split; [reflexivity|]. split; [reflexivity|].
  intros [e He]. vm_compute in He. discriminate He.
Qed.

(** C7, amended. For every population with a malformed parent reference,
    [joint_probability] does not abort: it returns a positive number.  No
    parent reference is resolved against the population. *)
Theorem joint_probability_never_aborts (people : dict string Person)
    (one_gene two_genes have_trait : gset string) :
  malformed_relationship people = true ->
  exists p, joint_probability people one_gene two_genes have_trait = Ok p /\ 0 < p.
Proof. intros _. apply joint_probability_pos. Qed.

Lemma joint_probability_never_aborts_witness :
  malformed_relationship orphan = true
  /\ exists p, joint_probability orphan {["Child"]} ∅ {["Child"]} = Ok p /\ 0 < p.
Proof.
  split; [reflexivity|].
  apply (joint_probability_never_aborts orphan {["Child"]} ∅ {["Child"]}).
  reflexivity.
Defined.

(** ** Parents *)

(** C9. [get_parent_prob] is a total function of its three arguments and
    takes no population.  For every parent value, [None] and names outside
    the population included, that is neither in [two_genes] nor in
    [one_gene], the parent counts as carrying 0 copies and the result is
    0.01. *)
Theorem get_parent_prob_absent (parent : option string) (one_gene two_genes : gset string) :
  py_in parent two_genes = false ->
  py_in parent one_gene = false ->
  get_nbr_genes parent one_gene two_genes = 0%Z
  /\ get_parent_prob parent one_gene two_genes = 0.01.
Proof.
  intros Htwo Hone. unfold get_parent_prob, get_nbr_genes.
  rewrite Htwo, Hone. split; reflexivity.
Qed.

Lemma get_parent_prob_absent_witness :
  py_in (Some "Ghost") {["James"]} = false
  /\ py_in (Some "Ghost") {["Harry"]} = false
  /\ get_nbr_genes (Some "Ghost") {["Harry"]} {["James"]} = 0%Z
  /\ get_parent_prob (Some "Ghost") {["Harry"]} {["James"]} = 0.01.
Proof.
  split; [reflexivity|]. split; [reflexivity|].
  apply (get_parent_prob_absent (Some "Ghost") {["Harry"]} {["James"]});
    reflexivity.
Defined.

Example get_parent_prob_None (one_gene two_genes : gset string) :
  get_parent_prob None one_gene two_genes = 0.01.
Proof. reflexivity. Qed.

(** ** Loading *)

Lemma load_data_snoc (rows : list Row) (row : Row) :
  load_data (rows ++ [row]) = load_row (load_data rows) row.
Proof. unfold load_data. by rewrite fold_left_app. Qed.

(** C10. The individual that [load_data] records for a row has trait
    [True] when the trait field is the string "1", [False] when it is "0",
    and [None] for every other string, malformed ones included. *)
Theorem load_data_trait (rows : list Row) (row : Row) :
  exists individual,
    dict_get (load_data (rows ++ [row])) (row_name row) = Ok individual
    /\ (row_trait row = "1" -> trait individual = Some true)
    /\ (row_trait row = "0" -> trait individual = Some false)
    /\ (row_trait row <> "1" -> row_trait row <> "0" -> trait individual = None).
Proof.
  rewrite load_data_snoc. unfold load_row. rewrite dict_get_set_eq.
  eexists. split; [reflexivity|]. simpl. unfold parse_trait.
  repeat split; intros; repeat case_decide; congruence.
Qed.

Lemma load_data_trait_witness :
  exists individual,
    dict_get
      (load_data
         (family_rows
          ++ [{| row_name := "Ron"; row_mother := ""; row_father := "";
                 row_trait := "yes" |}])) "Ron" = Ok individual
    /\ trait individual = None.
Proof.
  destruct (load_data_trait family_rows
              {| row_name := "Ron"; row_mother := ""; row_father := "";
                 row_trait := "yes" |})
    as (individual & Hget & _ & _ & Hother).
  exists individual. split; [exact Hget|].
  apply Hother; discriminate.
Defined.

Example parse_trait_examples :
  parse_trait "1" = Some true /\ parse_trait "0" = Some false
  /\ parse_trait "" = None /\ parse_trait "2" = None /\ parse_trait "yes" = None.
Proof. repeat split. Qed.

(** ** Normalization *)

Lemma py_div_zero (a b : Q) : b == 0 -> py_div a b = Raise ZeroDivisionError.
Proof.
  intros Hb. unfold py_div.
  by rewrite (proj2 (Qeq_bool_iff b 0) Hb).
Qed.

(** ** Subsets *)

Section Combinations.
Context {A : Type}.
Implicit Types (l k : list A) (r : nat).

Lemma elem_of_combinations l r k :
  k ∈ combinations l r <-> k `sublist_of` l /\ length k = r.
Proof.
  revert r k. induction l as [|x l IH]; intros [|r] k; simpl.
  - rewrite list_elem_of_singleton, sublist_nil_r.
    split; [by intros -> | by intros [-> _]].
  - rewrite elem_of_nil, sublist_nil_r. split; [done | by intros [-> ?]].
  - rewrite list_elem_of_singleton. split.
    + intros ->. split; [apply sublist_nil_l | done].
    + intros [_ Hlen]. by apply nil_length_inv.
  - rewrite elem_of_app, list_elem_of_fmap, sublist_cons_r. setoid_rewrite IH.
    split.
    + intros [(k' & -> & Hsub & <-)|[Hsub Hlen]]; split; eauto.
    + intros [[Hsub|(k' & -> & Hsub)] Hlen]; [by right | left].
      exists k'. simpl in Hlen. split; [done | split; [done | lia]].
Qed.

Lemma NoDup_combinations l r : NoDup l -> NoDup (combinations l r).
Proof.
  intros Hl. revert r.
  induction Hl as [|x l Hx Hl IH]; intros [|r]; simpl;
    try apply NoDup_singleton; try apply NoDup_nil_2.
  apply NoDup_app. split; [|split].
  - apply (NoDup_fmap_2 (cons x)), IH.
  - intros k (k' & -> & _)%list_elem_of_fmap [Hsub _]%elem_of_combinations.
    apply Hx. eapply elem_of_sublist; [|exact Hsub]. left.
  - apply IH.
Qed.

(** The subsequences of all lengths, as [powerset] chains them. *)
Lemma elem_of_all_combinations l k :
  k ∈ concat (map (fun r => combinations l r) (seq 0 (length l + 1)))
  <-> k `sublist_of` l.
Proof.
  rewrite list_elem_of_In, in_concat. split.
  - intros (ks & Hks & Hk). apply in_map_iff in Hks as (r & <- & _).
    apply list_elem_of_In, elem_of_combinations in Hk. tauto.
  - intros Hsub. exists (combinations l (length k)). split.
    + apply in_map_iff. exists (length k). split; [done|].
      apply in_seq. apply sublist_length in Hsub. lia.
    + by apply list_elem_of_In, elem_of_combinations.
Qed.

Lemma NoDup_all_combinations l :
  NoDup l ->
  NoDup (concat (map (fun r => combinations l r) (seq 0 (length l + 1)))).
Proof.
  intros Hl. generalize (seq 0 (length l + 1)) (NoDup_seq 0 (length l + 1)).
  intros rs Hrs. induction Hrs as [|r rs Hr Hrs IH]; simpl; [constructor|].
  apply NoDup_app. split; [|split].
  - by apply NoDup_combinations.
  - intros k [_ Hlen]%elem_of_combinations Hk.
    apply list_elem_of_In, in_concat in Hk as (ks & Hks & Hk).
    apply in_map_iff in Hks as (r' & <- & Hr').
    apply list_elem_of_In, elem_of_combinations in Hk as [_ Hlen'].
    apply Hr, list_elem_of_In. congruence.
  - exact IH.
Qed.

(** A subsequence of a duplicate-free list is determined by its elements. *)
Lemma sublist_same_elements l k1 k2 :
  NoDup l -> k1 `sublist_of` l -> k2 `sublist_of` l ->
  (forall x, x ∈ k1 <-> x ∈ k2) -> k1 = k2.
Proof.
  intros Hl. revert k1 k2.
  induction Hl as [|x l Hx Hl IH]; intros k1 k2 H1 H2 Hsame.
  - apply sublist_nil_r in H1, H2. congruence.
  - apply sublist_cons_r in H1 as [H1|(k1' & -> & H1)];
      apply sublist_cons_r in H2 as [H2|(k2' & -> & H2)].
    + by apply IH.
    + exfalso. apply Hx. eapply elem_of_sublist; [|exact H1].
      apply Hsame. left.
    + exfalso. apply Hx. eapply elem_of_sublist; [|exact H2].
      apply Hsame. left.
    + f_equal. apply IH; [done..|]. intros y.
      assert (Hy1 : y ∈ k1' -> y <> x).
      { intros Hy ->. apply Hx. by eapply elem_of_sublist. }
      assert (Hy2 : y ∈ k2' -> y <> x).
      { intros Hy ->. apply Hx. by eapply elem_of_sublist. }
      specialize (Hsame y). rewrite !elem_of_cons in Hsame. naive_solver.
Qed.
End Combinations.

Lemma elem_of_powerset (s X : gset string) : X ∈ powerset s <-> X ⊆ s.
Proof.
  unfold powerset. rewrite list_elem_of_fmap. split.
  - intros (k & -> & Hk%elem_of_all_combinations). intros x Hx.
    apply elem_of_list_to_set in Hx. apply elem_of_elements.
    by eapply elem_of_sublist.
  - intros Hsub. exists (filter (fun x => x ∈ X) (elements s)). split.
    + apply set_eq. intros x.
      rewrite elem_of_list_to_set, list_elem_of_filter, elem_of_elements.
      set_solver.
    + apply elem_of_all_combinations, sublist_filter.
Qed.

Lemma NoDup_powerset (s : gset string) : NoDup (powerset s).
Proof.
  unfold powerset. apply NoDup_fmap_2_strong.
  - intros k1 k2 H1%elem_of_all_combinations H2%elem_of_all_combinations Heq.
    apply (sublist_same_elements (elements s)); [apply NoDup_elements|done..|].
    intros x. rewrite <- !(elem_of_list_to_set (C:=gset string)). by rewrite Heq.
  - apply NoDup_all_combinations, NoDup_elements.
Qed.

(** ** The gene hypotheses *)

Lemma elem_of_gene_hypotheses (names one_gene two_genes : gset string) :
  (one_gene, two_genes) ∈ gene_hypotheses names
  <-> one_gene ⊆ names /\ two_genes ⊆ names ∖ one_gene.
Proof.
  unfold gene_hypotheses. rewrite list_elem_of_bind. split.
  - intros (one & Hpair & Hone). apply list_elem_of_fmap in Hpair as (two & [= -> ->] & Htwo).
    by rewrite <- !elem_of_powerset.
  - intros [Hone Htwo]. exists one_gene. rewrite list_elem_of_fmap, elem_of_powerset.
    split; [|done]. exists two_genes. by rewrite elem_of_powerset.
Qed.

Lemma NoDup_gene_hypotheses (names : gset string) : NoDup (gene_hypotheses names).
Proof.
  unfold gene_hypotheses. apply NoDup_bind.
  - intros one one' pair _ _ (two & -> & _)%list_elem_of_fmap
      (two' & [= -> _] & _)%list_elem_of_fmap.
    reflexivity.
  - intros one _. apply NoDup_fmap_2; [|apply NoDup_powerset].
    intros two two' [= ->]. reflexivity.
  - apply NoDup_powerset.
Qed.

Lemma elem_of_ternary (l : list string) (one two : gset string) :
  NoDup l ->
  (one, two) ∈ ternary l
  <-> one ⊆ list_to_set l /\ two ⊆ list_to_set l /\ one ## two.
Proof.
  intros Hl. revert one two.
  induction Hl as [|x l Hx Hl IH]; intros one two; simpl.
  - rewrite list_elem_of_singleton. split.
    + intros [= -> ->]. set_solver.
    + intros (Hone & Htwo & _). f_equal; set_solver.
  - rewrite <- (elem_of_list_to_set (C:=gset string)) in Hx.
    rewrite list_elem_of_bind. split.
    + intros ([one' two'] & Hpair & [Hone' [Htwo' Hdisj]]%IH). simpl in Hpair.
      rewrite !elem_of_cons, elem_of_nil in Hpair.
      destruct Hpair as [[= -> ->]|[[= -> ->]|[[= -> ->]|[]]]];
        (split; [|split]); set_solver.
    + intros (Hone & Htwo & Hdisj).
      exists (one ∖ {[x]}, two ∖ {[x]}). rewrite IH. split; [|set_solver].
      simpl. rewrite !elem_of_cons.
      destruct (decide (x ∈ one)) as [Hin|Hout]; [right; left|].
      { f_equal; apply set_eq; intros y;
          destruct (decide (y = x)) as [->|]; set_solver. }
      destruct (decide (x ∈ two)) as [Hin2|Hout2]; [right; right; left|left].
      { f_equal; apply set_eq; intros y;
          destruct (decide (y = x)) as [->|]; set_solver. }
      f_equal; set_solver.
Qed.

Lemma NoDup_ternary (l : list string) : NoDup l -> NoDup (ternary l).
Proof.
  induction 1 as [|x l Hx Hl IH]; simpl; [apply NoDup_singleton|].
  assert (Hfresh : forall pair, pair ∈ ternary l -> (x ∉ pair.1) /\ (x ∉ pair.2)).
  { intros [one two] (Hone & Htwo & _)%elem_of_ternary; [|done]. simpl.
    rewrite <- (elem_of_list_to_set (C:=gset string)) in Hx. set_solver. }
  apply NoDup_bind; [| |exact IH].
  - intros [o1 t1] [o2 t2] pair [Ho1 Ht1]%Hfresh [Ho2 Ht2]%Hfresh H1 H2.
    simpl in *. rewrite !elem_of_cons, elem_of_nil in H1, H2.
    destruct H1 as [->|[->|[->|[]]]];
      destruct H2 as [[= H2o H2t]|[[= H2o H2t]|[[= H2o H2t]|[]]]];
      f_equal; set_solver.
  - intros [one two] [Ho Ht]%Hfresh. simpl in *.
    repeat (apply NoDup_cons; split); [| |apply not_elem_of_nil|apply NoDup_nil_2].
    + rewrite !elem_of_cons, elem_of_nil. intros [[= H]|[[= H]|[]]]; set_solver.
    + rewrite !elem_of_cons, elem_of_nil. intros [[= H _]|[]]. set_solver.
Qed.

Lemma length_ternary (l : list string) : length (ternary l) = (3 ^ length l)%nat.
Proof.
  induction l as [|x l IH]; [reflexivity|].
  change (length (x :: l)) with (S (length l)).
  rewrite Nat.pow_succ_r', <- IH. simpl ternary.
  generalize (ternary l). intros ps.
  induction ps as [|pair ps IHps]; [reflexivity|].
  csimpl. rewrite IHps. lia.
Qed.

Lemma length_gene_hypotheses (names : gset string) :
  length (gene_hypotheses names) = (3 ^ size names)%nat.
Proof.
  unfold size, set_size. simpl. rewrite <- length_ternary.
  apply Permutation_length, NoDup_Permutation.
  - apply NoDup_gene_hypotheses.
  - apply NoDup_ternary, NoDup_elements.
  - intros [one two].
    rewrite elem_of_gene_hypotheses, elem_of_ternary by apply NoDup_elements.
    rewrite list_to_set_elements_L. set_solver.
Qed.

Lemma for_each_bind {A B S : Type} (f : A -> list B) (l : list A)
    (body : S -> B -> result S) (s : S) :
  for_each (l ≫= f) body s = for_each l (fun s x => for_each (f x) body s) s.
Proof.
  revert s. induction l as [|x l IH]; intros s; csimpl; [reflexivity|].
  rewrite for_each_app. destruct (for_each (f x) body s); simpl; [apply IH | reflexivity].
Qed.

Lemma for_each_fmap {A B S : Type} (g : A -> B) (l : list A)
    (body : S -> B -> result S) (s : S) :
  for_each (g <$> l) body s = for_each l (fun s x => body s (g x)) s.
Proof.
  revert s. induction l as [|x l IH]; intros s; csimpl; [reflexivity|].
  destruct (body s (g x)); simpl; [apply IH | reflexivity].
Qed.

(** The two gene loops perform [accumulate] once on each pair of
    [gene_hypotheses], in order. *)
Lemma gene_loops_flat (people : dict string Person) (names have_trait : gset string)
    (probabilities : dict string Belief) :
  gene_loops people names have_trait probabilities
  = for_each (gene_hypotheses names)
      (fun probabilities pair =>
         accumulate people have_trait pair.1 pair.2 probabilities)
      probabilities.
Proof.
  unfold gene_loops, gene_hypotheses. rewrite for_each_bind.
  apply for_each_ext. intros s one_gene _. by rewrite for_each_fmap.
Qed.

Lemma get_nbr_genes_two (person : string) (one_gene two_genes : gset string) :
  get_nbr_genes (Some person) one_gene two_genes = 2%Z <-> person ∈ two_genes.
Proof. unfold get_nbr_genes, py_in. repeat case_bool_decide; naive_solver. Qed.

Lemma get_nbr_genes_one (person : string) (one_gene two_genes : gset string) :
  get_nbr_genes (Some person) one_gene two_genes = 1%Z
  <-> (person ∉ two_genes) /\ (person ∈ one_gene).
Proof. unfold get_nbr_genes, py_in. repeat case_bool_decide; naive_solver. Qed.

(** Every assignment of a count 0, 1 or 2 to the names is the assignment of
    exactly one pair of [gene_hypotheses]. *)
Lemma gene_hypotheses_assignment (names : gset string) (count : string -> Z) :
  (forall person, person ∈ names ->
     count person = 0%Z \/ count person = 1%Z \/ count person = 2%Z) ->
  exists ! pair,
    pair ∈ gene_hypotheses names
    /\ forall person, person ∈ names ->
         get_nbr_genes (Some person) pair.1 pair.2 = count person.
Proof.
  intros Hcount.
  exists (filter (fun person => count person = 1%Z) names,
          filter (fun person => count person = 2%Z) names).
  split; [split|].
  - apply elem_of_gene_hypotheses. split.
    + intros x [_ Hx]%elem_of_filter. exact Hx.
    + intros x [Hc Hx]%elem_of_filter. apply elem_of_difference. split; [done|].
      intros [Hc' _]%elem_of_filter. congruence.
  - intros person Hin. simpl.
    destruct (Hcount person Hin) as [Hc|[Hc|Hc]]; rewrite Hc.
    + unfold get_nbr_genes, py_in.
      rewrite !bool_decide_eq_false_2; [done|..];
        intros [Hc' _]%elem_of_filter; congruence.
    + apply get_nbr_genes_one. rewrite !elem_of_filter. split; [|done].
      intros [Hc' _]. congruence.
    + apply get_nbr_genes_two. by rewrite elem_of_filter.
  - intros [one two] [[Hone Htwo]%elem_of_gene_hypotheses Hmatch]. simpl in Hmatch.
    f_equal; symmetry; apply set_eq; intros x; rewrite elem_of_filter; split.
    + intros Hx. assert (Hin : x ∈ names) by set_solver.
      split; [|done]. rewrite <- (Hmatch x Hin). apply get_nbr_genes_one.
      set_solver.
    + intros [Hc Hin]. rewrite <- (Hmatch x Hin) in Hc.
      by apply get_nbr_genes_one in Hc as [_ ?].
    + intros Hx. assert (Hin : x ∈ names) by set_solver.
      split; [|done]. rewrite <- (Hmatch x Hin). by apply get_nbr_genes_two.
    + intros [Hc Hin]. rewrite <- (Hmatch x Hin) in Hc.
      by apply get_nbr_genes_two in Hc.
Qed.

Lemma size_names_of (people : dict string Person) :
  NoDup (keys people) -> size (names_of people) = length people.
Proof.
  intros Hnd. unfold names_of. rewrite size_list_to_set by done.
  unfold keys. apply length_map.
Qed.

(** ** Evidence *)

Lemma elem_of_names_of (people : dict string Person) (person : string) :
  person ∈ names_of people <-> person ∈ keys people.
Proof. unfold names_of. apply elem_of_list_to_set. Qed.

Lemma any_of_cases {A : Type} (f : A -> result bool) (l : list A) :
  Forall (fun x => exists b, f x = Ok b) l ->
  (any_of f l = Ok false /\ Forall (fun x => f x = Ok false) l)
  \/ (any_of f l = Ok true /\ Exists (fun x => f x = Ok true) l).
Proof.
  induction 1 as [|x l [b Hb] _ IH]; simpl; [by left|].
  rewrite Hb. simpl. destruct b.
  - right. split; [done | by left].
  - destruct IH as [[-> Hall]|[-> Hex]]; [left | right]; split; try done.
    + by constructor.
    + by right.
Qed.

Lemma violates_false (people : dict string Person) (have_trait : gset string)
    (person : string) (individual : Person) :
  dict_get people person = Ok individual ->
  violates people have_trait person = Ok false
  <-> forall observed, trait individual = Some observed ->
        (person ∈ have_trait <-> observed = true).
Proof.
  intros Hget. unfold violates, py_in. rewrite Hget. simpl.
  destruct (trait individual) as [observed|].
  - case_bool_decide as Hin; destruct observed; simpl; split; intros H;
      try discriminate H; try reflexivity;
      try (intros ? [= <-]; by split);
      exfalso; destruct (H _ eq_refl) as [H1 H2]; auto; by discriminate H1.
  - split; [intros _ ? [=] | done].
Qed.

Lemma violates_total (people : dict string Person) (have_trait : gset string)
    (person : string) :
  person ∈ keys people -> exists b, violates people have_trait person = Ok b.
Proof.
  intros [individual Hget]%dict_get_keys. unfold violates. rewrite Hget. simpl. eauto.
Qed.

(** The evidence test returns, and says whether the trait set is
    admissible. *)
Lemma fails_evidence_cases (people : dict string Person) (have_trait : gset string) :
  (admissible people have_trait
   /\ fails_evidence people (names_of people) have_trait = Ok false)
  \/ (~ admissible people have_trait
      /\ fails_evidence people (names_of people) have_trait = Ok true).
Proof.
  unfold fails_evidence.
  destruct (any_of_cases (violates people have_trait) (elements (names_of people)))
    as [[-> Hall]|[-> Hex]].
  - apply Forall_forall. intros person Hin%elem_of_elements%elem_of_names_of.
    by apply violates_total.
  - left. split; [|done]. intros person individual observed Hget Hobs.
    rewrite Forall_forall in Hall.
    assert (Hin : person ∈ elements (names_of people)).
    { apply elem_of_elements, elem_of_names_of.
      apply dict_get_Ok_elem in Hget. unfold keys.
      apply list_elem_of_fmap. by exists (person, individual). }
    apply Hall in Hin. by eapply (violates_false people) in Hin.
  - right. split; [|done]. intros Hadm.
    apply Exists_exists in Hex as (person & Hin & Hviol).
    apply elem_of_elements, elem_of_names_of, dict_get_keys in Hin as [individual Hget].
    assert (Hfalse : violates people have_trait person = Ok false).
    { apply (violates_false people _ _ individual Hget).
      intros observed. by apply Hadm. }
    congruence.
Qed.

(** C3. For the trait set [have_trait] of the outer loop, the evidence test
    of lines 67-71 passes exactly when membership in [have_trait] equals the
    observation of every individual whose trait is known; individuals with
    trait [None] do not enter the condition.  When it passes the body runs
    the gene loops, and when it fails the body leaves the beliefs as they
    are: no joint probability is computed or accumulated. *)
Theorem trait_step_admissible (people : dict string Person) (have_trait : gset string)
    (probabilities : dict string Belief) :
  (fails_evidence people (names_of people) have_trait = Ok false
   <-> admissible people have_trait)
  /\ (fails_evidence people (names_of people) have_trait = Ok true
      <-> ~ admissible people have_trait)
  /\ (admissible people have_trait ->
      trait_step people (names_of people) probabilities have_trait
      = gene_loops people (names_of people) have_trait probabilities)
  /\ (~ admissible people have_trait ->
      trait_step people (names_of people) probabilities have_trait
      = Ok probabilities).
Proof.
  unfold trait_step.
  destruct (fails_evidence_cases people have_trait) as [[Hadm ->]|[Hadm ->]];
    simpl.
  - split; [by split|]. split; [split; [discriminate | by intros []]|].
    split; [done | by intros []].
  - split; [split; [discriminate | by intros ?]|]. split; [by split|].
    split; [by intros ? | done].
Qed.

Lemma trait_step_admissible_witness :
  trait_step couple (names_of couple) (init_probabilities couple) {["Arthur"]}
  = gene_loops couple (names_of couple) {["Arthur"]} (init_probabilities couple)
  /\ trait_step couple (names_of couple) (init_probabilities couple) {["Molly"]}
     = Ok (init_probabilities couple).
Proof.
  split.
  - destruct (trait_step_admissible couple {["Arthur"]} (init_probabilities couple))
      as (Hpass & _ & Hrun & _).
    apply Hrun, Hpass. vm_compute. reflexivity.
  - destruct (trait_step_admissible couple {["Molly"]} (init_probabilities couple))
      as (_ & Hfail & _ & Hskip).
    apply Hskip, Hfail. vm_compute. reflexivity.
Defined.

(** C2. For a population of [n] individuals and an admissible trait set,
    the nested subset loops of lines 76-77 visit exactly [3 ^ n] pairs
    [(one_gene, two_genes)], without repetition; the two sets of every pair
    are disjoint; every assignment of a count 0, 1 or 2 to the individuals
    is the assignment of exactly one visited pair; and the body of the trait
    loop computes [joint_probability] and [update] once for each visited
    pair, in order. *)
Theorem gene_hypotheses_exact (people : dict string Person) (have_trait : gset string)
    (probabilities : dict string Belief) :
  NoDup (keys people) ->
  admissible people have_trait ->
  length (gene_hypotheses (names_of people)) = (3 ^ length people)%nat
  /\ NoDup (gene_hypotheses (names_of people))
  /\ (forall pair, pair ∈ gene_hypotheses (names_of people) -> pair.1 ## pair.2)
  /\ (forall count : string -> Z,
        (forall person, person ∈ names_of people ->
           count person = 0%Z \/ count person = 1%Z \/ count person = 2%Z) ->
        exists ! pair,
          pair ∈ gene_hypotheses (names_of people)
          /\ forall person, person ∈ names_of people ->
               get_nbr_genes (Some person) pair.1 pair.2 = count person)
  /\ trait_step people (names_of people) probabilities have_trait
     = for_each (gene_hypotheses (names_of people))
         (fun probabilities pair =>
            let* p := joint_probability people pair.1 pair.2 have_trait in
            update probabilities pair.1 pair.2 have_trait p)
         probabilities.
Proof.
  intros Hnd Hadm. split; [|split; [|split; [|split]]].
  - by rewrite length_gene_hypotheses, size_names_of.
  - apply NoDup_gene_hypotheses.
  - intros [one two] [_ Htwo]%elem_of_gene_hypotheses. simpl. set_solver.
  - apply gene_hypotheses_assignment.
  - unfold trait_step.
    destruct (fails_evidence_cases people have_trait) as [[_ ->]|[Hno _]]; [|done].
    simpl. apply gene_loops_flat.
Qed.

Lemma couple_keys_NoDup : NoDup (keys couple).
Proof. apply (bool_decide_unpack _). vm_compute. exact I. Defined.

Lemma couple_admissible : admissible couple {["Arthur"]}.
Proof.
  destruct (fails_evidence_cases couple {["Arthur"]}) as [[Hadm _]|[_ Hfails]].
  - exact Hadm.
  - vm_compute in Hfails. discriminate Hfails.
Defined.

Lemma gene_hypotheses_exact_witness :
  length (gene_hypotheses (names_of couple)) = 9%nat
  /\ trait_step couple (names_of couple) (init_probabilities couple) {["Arthur"]}
     = for_each (gene_hypotheses (names_of couple))
         (fun probabilities pair =>
            let* p := joint_probability couple pair.1 pair.2 {["Arthur"]} in
            update probabilities pair.1 pair.2 {["Arthur"]} p)
         (init_probabilities couple).
Proof.
  destruct (gene_hypotheses_exact couple {["Arthur"]} (init_probabilities couple)
              couple_keys_NoDup couple_admissible)
    as (Hlen & _ & _ & _ & Hstep).
  split; [exact Hlen | exact Hstep].
Defined.

(** ** Sums *)

Lemma fold_left_Qplus_acc (l : list Q) (acc : Q) :
  fold_left Qplus l acc == acc + fold_left Qplus l 0.
Proof.
  revert acc. induction l as [|v l IH]; intros acc; simpl; [ring|].
  rewrite (IH (acc + v)), (IH (0 + v)). ring.
Qed.

Lemma fold_left_Qplus_nonneg (l : list Q) :
  Forall (fun v => 0 <= v) l -> 0 <= fold_left Qplus l 0.
Proof.
  induction 1 as [|v l Hv _ IH]; simpl; [apply Qle_refl|].
  rewrite fold_left_Qplus_acc. lra.
Qed.

Lemma fold_left_Qplus_bound (l : list Q) (v : Q) :
  Forall (fun v => 0 <= v) l -> v ∈ l -> v <= fold_left Qplus l 0.
Proof.
  induction 1 as [|w l Hw Hl IH]; intros Hin; [by apply elem_of_nil in Hin|].
  simpl. rewrite fold_left_Qplus_acc.
  pose proof (fold_left_Qplus_nonneg l Hl) as Hsum.
  apply elem_of_cons in Hin as [->|Hin]; [lra|].
  specialize (IH Hin). lra.
Qed.

Lemma fold_left_Qplus_div (l : list Q) (s : Q) :
  ~ s == 0 ->
  fold_left Qplus (map (fun v => v / s) l) 0 == fold_left Qplus l 0 / s.
Proof.
  intros Hs. induction l as [|v l IH]; simpl.
  - field. exact Hs.
  - rewrite fold_left_Qplus_acc, IH, (fold_left_Qplus_acc l (0 + v)).
    field. exact Hs.
Qed.

(** ** Normalizing one table *)

Lemma divide_all_Ok {K : Type} (d : dict K Q) (this_sum : Q) :
  ~ this_sum == 0 ->
  divide_all d this_sum = Ok (map (fun bucket => (bucket.1, bucket.2 / this_sum)) d).
Proof.
  intros Hs. induction d as [|[value v] d IH]; simpl; [reflexivity|].
  unfold py_div. destruct (Qeq_bool this_sum 0) eqn:Hz.
  - by apply Qeq_bool_iff in Hz.
  - simpl. rewrite IH. reflexivity.
Qed.

Lemma normalize_dist_normalized {K : Type} (d : dict K Q) :
  Forall (fun bucket => 0 <= bucket.2) d ->
  0 < dict_sum d ->
  normalize_dist d
  = Ok (map (fun bucket => (bucket.1, bucket.2 / dict_sum d)) d)
  /\ normalized (map (fun bucket => (bucket.1, bucket.2 / dict_sum d)) d).
Proof.
  intros Hnonneg Hpos.
  assert (Hs : ~ dict_sum d == 0) by lra.
  split; [by apply divide_all_Ok|]. split.
  - unfold dict_sum at 1, values. rewrite map_map. simpl.
    rewrite <- (map_map snd (fun v => v / dict_sum d)).
    rewrite fold_left_Qplus_div by done. fold (values d). fold (dict_sum d).
    field. exact Hs.
  - apply Forall_fmap, Forall_forall. intros [value v] Hin. simpl.
    rewrite Forall_forall in Hnonneg. pose proof (Hnonneg _ Hin) as Hv. simpl in Hv.
    assert (Hle : v <= dict_sum d).
    { apply fold_left_Qplus_bound.
      - apply Forall_fmap, Forall_forall. intros b Hb. by apply Hnonneg.
      - apply list_elem_of_fmap. by exists (value, v). }
    split.
    + apply Qle_shift_div_l; [done | lra].
    + apply Qle_shift_div_r; [done | lra].
Qed.

(** ** Accumulation *)

Lemma get_trait_admissible (people : dict string Person) (have_trait : gset string)
    (person : string) (individual : Person) (observed : bool) :
  admissible people have_trait ->
  dict_get people person = Ok individual ->
  trait individual = Some observed ->
  get_trait person have_trait = observed.
Proof.
  intros Hadm Hget Hobs. specialize (Hadm person individual observed Hget Hobs).
  unfold get_trait, py_in. case_bool_decide as Hin; destruct observed; try done.
  - by apply Hadm in Hin.
  - exfalso. apply Hin. by apply Hadm.
Qed.

(** [update] on one person: the bucket of the hypothesized gene count and
    the bucket of the hypothesized trait grow by [p]; the other buckets are
    left as they are. *)
Lemma update_person_mass (one_gene two_genes have_trait : gset string) (p mass : Q)
    (person : string) (belief : Belief) :
  0 <= p ->
  belief_mass mass belief ->
  exists belief',
    update_person one_gene two_genes have_trait p person belief = Ok belief'
    /\ belief_mass (mass + p) belief'
    /\ (dict_get (trait_dist belief) (negb (get_trait person have_trait)) = Ok 0 ->
        dict_get (trait_dist belief') (negb (get_trait person have_trait)) = Ok 0).
Proof.
  intros Hp (g2 & g1 & g0 & t1 & t0 & -> & H2 & H1 & H0 & Ht1 & Ht0 & Hg & Ht).
  unfold update_person.
  destruct (get_nbr_genes_range (Some person) one_gene two_genes) as [Hn|[Hn|Hn]];
    rewrite Hn; destruct (get_trait person have_trait);
    (eexists; split; [reflexivity|]; split;
     [ do 5 eexists; split; [reflexivity|]; repeat split; lra
     | simpl; intros [= ->]; reflexivity ]).
Qed.

Lemma update_mass (people : dict string Person)
    (one_gene two_genes have_trait : gset string) (p mass : Q)
    (probabilities : dict string Belief) :
  0 <= p ->
  admissible people have_trait ->
  Forall (fun entry => belief_mass mass entry.2 /\ opposite_empty people entry)
    probabilities ->
  exists probabilities',
    update probabilities one_gene two_genes have_trait p = Ok probabilities'
    /\ keys probabilities' = keys probabilities
    /\ Forall (fun entry => belief_mass (mass + p) entry.2
                            /\ opposite_empty people entry)
         probabilities'.
Proof.
  intros Hp Hadm. induction 1 as [|[person belief] rest [Hmass Hopp] _ IH]; simpl.
  - exists []. by repeat split.
  - destruct (update_person_mass one_gene two_genes have_trait p mass person belief
                Hp Hmass) as (belief' & -> & Hmass' & Hkeep).
    destruct IH as (rest' & -> & Hkeys & Hrest). simpl.
    eexists. split; [reflexivity|]. split; [simpl; by rewrite Hkeys|].
    constructor; [|exact Hrest]. split; [exact Hmass'|].
    intros individual observed Hget Hobs. simpl in *.
    rewrite <- (get_trait_admissible people have_trait person individual observed)
      by done.
    apply Hkeep.
    rewrite (get_trait_admissible people have_trait person individual observed)
      by done.
    by apply (Hopp individual).
Qed.

Lemma accumulate_mass (people : dict string Person)
    (have_trait one_gene two_genes : gset string) (mass : Q)
    (probabilities : dict string Belief) :
  admissible people have_trait ->
  accumulated people mass probabilities ->
  exists p probabilities',
    accumulate people have_trait one_gene two_genes probabilities = Ok probabilities'
    /\ 0 < p
    /\ accumulated people (mass + p) probabilities'.
Proof.
  intros Hadm [Hkeys Hall]. unfold accumulate.
  destruct (joint_probability_pos people one_gene two_genes have_trait)
    as (p & -> & Hp).
  destruct (update_mass people one_gene two_genes have_trait p mass probabilities)
    as (probabilities' & Hupd & Hkeys' & Hall'); [lra|done..|].
  exists p, probabilities'. simpl. split; [done|]. split; [done|].
  split; [congruence | done].
Qed.

(** ** Loops with progress *)

Lemma for_each_progress {A S : Type} (P Pplus : S -> Prop) (good : A -> Prop)
    (l : list A) (body : S -> A -> result S) (s : S) :
  (forall s x, x ∈ l -> P s ->
     exists s', body s x = Ok s' /\ P s' /\ (Pplus s \/ good x -> Pplus s')) ->
  P s ->
  exists s',
    for_each l body s = Ok s' /\ P s' /\ (Pplus s \/ Exists good l -> Pplus s').
Proof.
  revert s. induction l as [|x l IH]; intros s Hbody Hs; simpl.
  - exists s. split; [done|]. split; [done|].
    intros [H|H]; [done | by apply Exists_nil in H].
  - destruct (Hbody s x) as (s1 & -> & Hs1 & Hplus1); [left | done |].
    simpl. destruct (IH s1) as (s2 & -> & Hs2 & Hplus2); [|done|].
    { intros s' y Hy. apply Hbody. by right. }
    exists s2. split; [done|]. split; [done|].
    intros [H|H]; [by auto|]. apply Exists_cons in H as [H|H]; auto.
Qed.

(** The beliefs with some, respectively positive, accumulated mass. *)
Lemma gene_loops_mass (people : dict string Person) (have_trait : gset string)
    (names : gset string) (mass : Q) (probabilities : dict string Belief) :
  admissible people have_trait ->
  0 <= mass ->
  accumulated people mass probabilities ->
  exists mass' probabilities',
    gene_loops people names have_trait probabilities = Ok probabilities'
    /\ 0 < mass'
    /\ accumulated people mass' probabilities'.
Proof.
  intros Hadm Hmass Hacc. rewrite gene_loops_flat.
  destruct (for_each_progress
              (fun probabilities => exists mass, 0 <= mass
                 /\ accumulated people mass probabilities)
              (fun probabilities => exists mass, 0 < mass
                 /\ accumulated people mass probabilities)
              (fun _ => True)
              (gene_hypotheses names)
              (fun probabilities pair =>
                 accumulate people have_trait pair.1 pair.2 probabilities)
              probabilities)
    as (probabilities' & Hrun & _ & Hplus).
  - intros s [one two] _ (m & Hm & Hs).
    destruct (accumulate_mass people have_trait one two m s Hadm Hs)
      as (p & s' & Hs' & Hp & Hacc').
    exists s'. split; [done|]. split.
    + exists (m + p). split; [lra | done].
    + intros _. exists (m + p). split; [lra | done].
  - by exists mass.
  - destruct Hplus as (mass' & Hmass' & Hacc').
    + right. apply Exists_exists. exists (∅, ∅). split; [|done].
      apply elem_of_gene_hypotheses. set_solver.
    + by exists mass', probabilities'.
Qed.

Lemma observed_true_admissible (people : dict string Person) :
  admissible people (observed_true people).
Proof.
  intros person individual observed Hget Hobs. unfold observed_true.
  rewrite elem_of_list_to_set, list_elem_of_In, filter_In. unfold observed_having.
  rewrite Hget, Hobs. split.
  - intros [_ H]. by destruct observed.
  - intros ->. split; [|done]. apply list_elem_of_In.
    apply dict_get_Ok_elem in Hget. unfold keys.
    apply list_elem_of_fmap. by exists (person, individual).
Qed.

Lemma observed_true_subset (people : dict string Person) :
  observed_true people ⊆ names_of people.
Proof.
  intros person. unfold observed_true, names_of.
  rewrite !elem_of_list_to_set, !list_elem_of_In, filter_In. tauto.
Qed.

Lemma init_probabilities_accumulated (people : dict string Person) :
  accumulated people 0 (init_probabilities people).
Proof.
  unfold init_probabilities. split.
  - unfold keys. rewrite map_map. simpl. apply map_id.
  - apply Forall_fmap, Forall_forall. intros person _. simpl. split.
    + exists 0, 0, 0, 0, 0. repeat split; lra.
    + intros individual observed _ _. by destruct observed.
Qed.

(** The loops of [main] return beliefs of positive mass: at least one trait
    set is admissible and every hypothesis has positive probability. *)
Lemma main_loop_mass (people : dict string Person) :
  exists mass probabilities,
    main_loop people (init_probabilities people) = Ok probabilities
    /\ 0 < mass
    /\ accumulated people mass probabilities.
Proof.
  unfold main_loop.
  destruct (for_each_progress
              (fun probabilities => exists mass, 0 <= mass
                 /\ accumulated people mass probabilities)
              (fun probabilities => exists mass, 0 < mass
                 /\ accumulated people mass probabilities)
              (admissible people)
              (powerset (names_of people))
              (trait_step people (names_of people))
              (init_probabilities people))
    as (probabilities & Hrun & _ & Hplus).
  - intros s have_trait _ (m & Hm & Hs). unfold trait_step.
    destruct (fails_evidence_cases people have_trait) as [[Hadm ->]|[Hadm ->]]; simpl.
    + destruct (gene_loops_mass people have_trait (names_of people) m s Hadm Hm Hs)
        as (m' & s' & -> & Hm' & Hs').
      exists s'. split; [done|]. split.
      * exists m'. split; [lra | done].
      * intros _. by exists m'.
    + exists s. split; [done|]. split; [by exists m|].
      intros [H|H]; [exact H | contradiction].
  - exists 0. split; [lra | apply init_probabilities_accumulated].
  - destruct Hplus as (mass & Hmass & Hacc).
    + right. apply Exists_exists. exists (observed_true people). split.
      * apply elem_of_powerset, observed_true_subset.
      * apply observed_true_admissible.
    + by exists mass, probabilities.
Qed.

(** ** Normalization of the accumulated beliefs *)

Lemma normalize_person_mass (mass : Q) (belief : Belief) :
  0 < mass ->
  belief_mass mass belief ->
  exists belief',
    normalize_person belief = Ok belief'
    /\ keys (gene_dist belief') = [2%Z; 1%Z; 0%Z]
    /\ keys (trait_dist belief') = [true; false]
    /\ normalized (gene_dist belief')
    /\ normalized (trait_dist belief')
    /\ forall observed,
         dict_get (trait_dist belief) (negb observed) = Ok 0 ->
         exists p_observed p_opposite,
           dict_get (trait_dist belief') observed = Ok p_observed
           /\ dict_get (trait_dist belief') (negb observed) = Ok p_opposite
           /\ p_observed == 1 /\ p_opposite == 0.
Proof.
  intros Hmass (g2 & g1 & g0 & t1 & t0 & -> & H2 & H1 & H0 & Ht1 & Ht0 & Hg & Ht).
  destruct (normalize_dist_normalized [(2%Z, g2); (1%Z, g1); (0%Z, g0)])
    as [Hgene Hgene_norm].
  { repeat constructor; done. }
  { unfold dict_sum. simpl. lra. }
  destruct (normalize_dist_normalized [(true, t1); (false, t0)])
    as [Htrait Htrait_norm].
  { repeat constructor; done. }
  { unfold dict_sum. simpl. lra. }
  unfold normalize_person. simpl gene_dist. simpl trait_dist.
  rewrite Hgene, Htrait. simpl bind.
  eexists. split; [reflexivity|]. simpl gene_dist. simpl trait_dist.
  split; [reflexivity|]. split; [reflexivity|].
  split; [exact Hgene_norm|]. split; [exact Htrait_norm|].
  intros [|]; simpl; intros [= ->]; do 2 eexists;
    (split; [reflexivity|]; split; [reflexivity|]);
    unfold dict_sum; simpl; split; field; lra.
Qed.

Lemma normalize_mass (people : dict string Person) (mass : Q)
    (probabilities : dict string Belief) :
  0 < mass ->
  Forall (fun entry => belief_mass mass entry.2 /\ opposite_empty people entry)
    probabilities ->
  exists probabilities',
    normalize probabilities = Ok probabilities'
    /\ keys probabilities' = keys probabilities
    /\ Forall
         (fun entry =>
            keys (gene_dist entry.2) = [2%Z; 1%Z; 0%Z]
            /\ keys (trait_dist entry.2) = [true; false]
            /\ normalized (gene_dist entry.2)
            /\ normalized (trait_dist entry.2)
            /\ forall individual observed,
                 dict_get people entry.1 = Ok individual ->
                 trait individual = Some observed ->
                 exists p_observed p_opposite,
                   dict_get (trait_dist entry.2) observed = Ok p_observed
                   /\ dict_get (trait_dist entry.2) (negb observed) = Ok p_opposite
                   /\ p_observed == 1 /\ p_opposite == 0)
         probabilities'.
Proof.
  intros Hmass. induction 1 as [|[person belief] rest [Hbelief Hopp] _ IH]; simpl.
  - exists []. by repeat split.
  - destruct (normalize_person_mass mass belief Hmass Hbelief)
      as (belief' & -> & Hk1 & Hk2 & Hn1 & Hn2 & Hpoint).
    destruct IH as (rest' & -> & Hkeys & Hrest). simpl.
    eexists. split; [reflexivity|]. split; [simpl; by rewrite Hkeys|].
    constructor; [|exact Hrest]. simpl. repeat (split; [done|]).
    intros individual observed Hget Hobs.
    apply Hpoint. by apply (Hopp individual).
Qed.

(** ** The whole run *)

(** C5. For every population, whatever the observed traits, the run
    returns beliefs for the individuals of the population, and after
    [normalize] the gene table over 2, 1, 0 and the trait table over
    [True], [False] of every individual each sum to 1, with every entry
    between 0 and 1.  Numbers are exact rationals here. *)
Theorem infer_normalized (people : dict string Person) :
  exists probabilities,
    infer people = Ok probabilities
    /\ keys probabilities = keys people
    /\ Forall
         (fun entry =>
            keys (gene_dist entry.2) = [2%Z; 1%Z; 0%Z]
            /\ keys (trait_dist entry.2) = [true; false]
            /\ normalized (gene_dist entry.2)
            /\ normalized (trait_dist entry.2))
         probabilities.
Proof.
  unfold infer.
  destruct (main_loop_mass people) as (mass & accumulated & -> & Hmass & Hkeys & Hall).
  destruct (normalize_mass people mass accumulated Hmass Hall)
    as (probabilities & Hnorm & Hkeys' & Hall').
  exists probabilities. simpl. split; [exact Hnorm|]. split; [congruence|].
  eapply Forall_impl; [exact Hall'|]. simpl. tauto.
Qed.

Lemma dict_get_Forall {V : Type} (P : string * V -> Prop) (d : dict string V)
    (k : string) :
  Forall P d -> k ∈ keys d -> exists v, dict_get d k = Ok v /\ P (k, v).
Proof.
  intros Hall [v Hget]%dict_get_keys. exists v. split; [done|].
  rewrite Forall_forall in Hall. by apply Hall, dict_get_Ok_elem.
Qed.

(** C6. For an individual whose observed trait is known, every admissible
    trait set gives that individual the observed value; after the loops the
    bucket of the opposite value still holds exactly 0; and after
    [normalize] the trait table of the individual is 1 on the observed value
    and 0 on the opposite one. *)
Theorem known_trait_point_mass (people : dict string Person) (person : string)
    (individual : Person) (observed : bool) :
  dict_get people person = Ok individual ->
  trait individual = Some observed ->
  (forall have_trait, admissible people have_trait ->
     get_trait person have_trait = observed)
  /\ (exists probabilities belief,
        main_loop people (init_probabilities people) = Ok probabilities
        /\ dict_get probabilities person = Ok belief
        /\ dict_get (trait_dist belief) (negb observed) = Ok 0)
  /\ (exists probabilities belief p_observed p_opposite,
        infer people = Ok probabilities
        /\ dict_get probabilities person = Ok belief
        /\ dict_get (trait_dist belief) observed = Ok p_observed
        /\ dict_get (trait_dist belief) (negb observed) = Ok p_opposite
        /\ p_observed == 1 /\ p_opposite == 0).
Proof.
  intros Hget Hobs.
  assert (Hin : person ∈ keys people).
  { apply dict_get_Ok_elem in Hget. unfold keys.
    apply list_elem_of_fmap. by exists (person, individual). }
  destruct (main_loop_mass people) as (mass & accumulated & Hloop & Hmass & Hkeys & Hall).
  split; [|split].
  - intros have_trait Hadm. by eapply get_trait_admissible.
  - destruct (dict_get_Forall _ accumulated person Hall) as (belief & Hb & _ & Hopp);
      [by rewrite Hkeys|].
    exists accumulated, belief. split; [done|]. split; [done|].
    by apply (Hopp individual).
  - destruct (normalize_mass people mass accumulated Hmass Hall)
      as (probabilities & Hnorm & Hkeys' & Hall').
    destruct (dict_get_Forall _ probabilities person Hall')
      as (belief & Hb & _ & _ & _ & _ & Hpoint); [by rewrite Hkeys', Hkeys|].
    destruct (Hpoint individual observed Hget Hobs)
      as (p_observed & p_opposite & H1 & H2 & H3 & H4).
    exists probabilities, belief, p_observed, p_opposite.
    unfold infer. rewrite Hloop. simpl. by repeat split.
Qed.

Lemma known_trait_point_mass_witness :
  exists probabilities belief p_observed p_opposite,
    infer family = Ok probabilities
    /\ dict_get probabilities "James" = Ok belief
    /\ dict_get (trait_dist belief) true = Ok p_observed
    /\ dict_get (trait_dist belief) false = Ok p_opposite
    /\ p_observed == 1 /\ p_opposite == 0.
Proof.
  destruct (known_trait_point_mass family "James"
              {| name := "James"; mother := None; father := None; trait := Some true |}
              true eq_refl eq_refl)
    as (_ & _ & Hpoint).
  exact Hpoint.
Defined.

(** The run on the family of the data file: the child's gene table is
    about 0.0092, 0.4557, 0.5351 and the child has the trait with
    probability about 0.2665. *)
Example infer_family :
  reduced (main family_rows)
  = [("Harry",
      [(2%Z, 41740677 # 4545370000); (1%Z, 1035658623 # 2272685000);
       (0%Z, 2432312077 # 4545370000)],
      [(true, 60569610929 # 227268500000); (false, 166698889071 # 227268500000)]);
     ("James",
      [(2%Z, 65 # 329); (1%Z, 24 # 47); (0%Z, 96 # 329)],
      [(true, 1); (false, 0)]);
     ("Lily",
      [(2%Z, 35 # 9671); (1%Z, 132 # 9671); (0%Z, 9504 # 9671)],
      [(true, 0); (false, 1)])].
Proof. vm_compute. reflexivity. Qed.

(** * Further properties of the code *)

(** ** [powerset] *)

Lemma elem_of_subsequences {A : Type} (l k : list A) :
  k ∈ subsequences l <-> k `sublist_of` l.
Proof.
  revert k. induction l as [|x l IH]; intros k; simpl.
  - by rewrite list_elem_of_singleton, sublist_nil_r.
  - rewrite elem_of_app, list_elem_of_fmap, sublist_cons_r, IH.
    setoid_rewrite IH. naive_solver.
Qed.

Lemma NoDup_subsequences {A : Type} (l : list A) :
  NoDup l -> NoDup (subsequences l).
Proof.
  induction 1 as [|x l Hx Hl IH]; simpl; [apply NoDup_singleton|].
  apply NoDup_app. split; [|split]; [|
    |exact IH].
  - apply (NoDup_fmap_2 (cons x)), IH.
  - intros k (k' & -> & _)%list_elem_of_fmap Hsub%elem_of_subsequences.
    apply Hx. eapply elem_of_sublist; [|exact Hsub]. left.
Qed.

Lemma length_subsequences {A : Type} (l : list A) :
  length (subsequences l) = (2 ^ length l)%nat.
Proof.
  induction l as [|x l IH]; [reflexivity|].
  simpl subsequences. rewrite length_app, length_map, IH.
  change (length (x :: l)) with (S (length l)). rewrite Nat.pow_succ_r'. lia.
Qed.

Lemma powerset_count (s : gset string) :
  NoDup (powerset s) /\ length (powerset s) = (2 ^ size s)%nat.
Proof.
  split; [apply NoDup_powerset|].
  unfold powerset. rewrite length_map.
  unfold size, set_size. simpl. rewrite <- length_subsequences.
  apply Permutation_length, NoDup_Permutation.
  - apply NoDup_all_combinations, NoDup_elements.
  - apply NoDup_subsequences, NoDup_elements.
  - intros k. by rewrite elem_of_all_combinations, elem_of_subsequences.
Qed.

(** X1. [powerset s] lists every subset of [s], each once: [2 ^ n] sets for a
    set of [n] names. *)
Theorem powerset_exact (s : gset string) :
  NoDup (powerset s)
  /\ (forall X, X ∈ powerset s <-> X ⊆ s)
  /\ length (powerset s) = (2 ^ size s)%nat.
Proof.
  destruct (powerset_count s) as [Hnd Hlen].
  split; [exact Hnd|]. split; [intros X; apply elem_of_powerset | exact Hlen].
Qed.

(** ** [joint_probability] *)

Lemma person_factor_le_1 (people : dict string Person)
    (one_gene two_genes have_trait : gset string) (person : string) (factor : Q) :
  person_factor people one_gene two_genes have_trait person = Ok factor ->
  factor <= 1.
Proof.
  unfold person_factor. destruct (dict_get people person) as [record|]; [|discriminate].
  simpl bind. unfold get_trait, get_parent_prob, get_nbr_genes.
  destruct (py_in (Some person) two_genes), (py_in (Some person) one_gene),
    (py_in (Some person) have_trait);
    (destruct (mother record) as [m|];
     [ destruct (py_in (Some m) two_genes), (py_in (Some m) one_gene),
         (py_in (father record) two_genes), (py_in (father record) one_gene)
     | ]);
    intros [= <-]; discriminate.
Qed.

Lemma joint_loop_le_1 (people : dict string Person)
    (one_gene two_genes have_trait : gset string) (l : list string) (joint_p p : Q) :
  Forall (fun person => person ∈ keys people) l ->
  0 < joint_p <= 1 ->
  for_each l
    (fun joint_p person =>
       let* factor := person_factor people one_gene two_genes have_trait person in
       Ok (joint_p * factor))
    joint_p = Ok p ->
  p <= 1.
Proof.
  intros Hl. revert joint_p.
  induction Hl as [|person l Hin _ IH]; intros joint_p Hpos; simpl.
  - intros [= <-]. apply Hpos.
  - destruct (dict_get_keys people person Hin) as [record Hget].
    destruct (person_factor_pos people one_gene two_genes have_trait person record Hget)
      as (factor & Hfactor & Hfpos).
    rewrite Hfactor. simpl. apply IH.
    apply person_factor_le_1 in Hfactor. split.
    + apply Qmult_lt_0_compat; tauto.
    + rewrite <- (Qmult_1_l 1). apply Qmult_le_compat_nonneg; lra.
Qed.

(** X5. For every population and every hypothesis, [joint_probability] returns
    a number in (0, 1]. *)
Theorem joint_probability_bounds (people : dict string Person)
    (one_gene two_genes have_trait : gset string) :
  exists p,
    joint_probability people one_gene two_genes have_trait = Ok p
    /\ 0 < p <= 1.
Proof.
  destruct (joint_probability_pos people one_gene two_genes have_trait)
    as (p & Hp & Hpos).
  exists p. split; [exact Hp|]. split; [exact Hpos|].
  apply (joint_loop_le_1 people one_gene two_genes have_trait (keys people) 1 p);
    [by apply Forall_forall | split; [reflexivity | discriminate] | exact Hp].
Qed.

Lemma dict_get_related {V : Type} (R : V -> V -> Prop) (d d' : dict string V)
    (k : string) :
  Forall2 (fun entry entry' => entry.1 = entry'.1 /\ R entry.2 entry'.2) d d' ->
  match dict_get d k, dict_get d' k with
  | Ok v, Ok v' => R v v'
  | Raise e, Raise e' => e = e'
  | _, _ => False
  end.
Proof.
  induction 1 as [|[k1 v1] [k2 v2] d d' [Hk Hv] _ IH]; simpl in *; [done|].
  subst k2. by case_decide.
Qed.

(** X6. [joint_probability] reads nothing of an individual but the two parent
    references: populations with the same keys and the same parents have
    the same joint probabilities, whatever the observed traits. *)
Theorem joint_probability_parents_only (people people' : dict string Person)
    (one_gene two_genes have_trait : gset string) :
  Forall2
    (fun entry entry' =>
       entry.1 = entry'.1
       /\ mother entry.2 = mother entry'.2 /\ father entry.2 = father entry'.2)
    people people' ->
  joint_probability people one_gene two_genes have_trait
  = joint_probability people' one_gene two_genes have_trait.
Proof.
  intros Hrel. unfold joint_probability.
  assert (Hkeys : keys people = keys people').
  { unfold keys. induction Hrel as [|? ? ? ? [Hk _] _ IH]; simpl; congruence. }
  rewrite <- Hkeys. apply for_each_ext. intros joint_p person _.
  unfold person_factor.
  pose proof (dict_get_related
                (fun r r' => mother r = mother r' /\ father r = father r')
                people people' person Hrel) as Hget.
  destruct (dict_get people person) as [r|e], (dict_get people' person) as [r'|e'];
    try done; simpl.
  - destruct Hget as [-> ->]. reflexivity.
  - by subst.
Qed.

Lemma joint_probability_parents_only_witness :
  joint_probability family {["Harry"]} {["James"]} {["James"]}
  = joint_probability (parents_only family) {["Harry"]} {["James"]} {["James"]}.
Proof.
  apply (joint_probability_parents_only family (parents_only family)).
  repeat constructor.
Defined.

(** X7. For transmission probabilities in [0,1], each child gene-count
    probability of lines 152-157 lies in [0,1] and is the same when mother
    and father are exchanged. *)
Theorem child_gene_prob_range (this_genes : Z) (prob_mother prob_father : Q) :
  0 <= prob_mother <= 1 ->
  0 <= prob_father <= 1 ->
  0 <= child_gene_prob this_genes prob_mother prob_father <= 1
  /\ child_gene_prob this_genes prob_mother prob_father
     == child_gene_prob this_genes prob_father prob_mother.
Proof.
  intros Hm Hf. unfold child_gene_prob.
  repeat case_decide; (split; [split; nra | ring]).
Qed.

Lemma child_gene_prob_range_witness :
  0 <= child_gene_prob 1 0.01 0.99 <= 1
  /\ child_gene_prob 1 0.01 0.99 == child_gene_prob 1 0.99 0.01.
Proof.
  apply (child_gene_prob_range 1 0.01 0.99); split; discriminate.
Defined.

(** ** [load_data] *)

Lemma dict_get_set_ne {K V : Type} `{EqDecision K} (d : dict K V) (k k' : K) (v : V) :
  k <> k' -> dict_get (dict_set d k v) k' = dict_get d k'.
Proof.
  intros Hne. induction d as [|[k1 v1] d IH]; simpl.
  - by rewrite decide_False.
  - destruct (decide (k1 = k)) as [->|Hk]; simpl.
    + by rewrite !decide_False.
    + by rewrite IH.
Qed.

Lemma dict_get_KeyError {K V : Type} `{EqDecision K} (d : dict K V) (k : K) :
  dict_get d k = Raise KeyError <-> k ∉ keys d.
Proof.
  unfold keys. induction d as [|[k1 v1] d IH]; simpl.
  - split; [intros _; apply not_elem_of_nil | done].
  - rewrite not_elem_of_cons. case_decide as Hk.
    + split; [discriminate | intros [Hne _]; congruence].
    + rewrite IH. split; [by split | tauto].
Qed.

Lemma load_rows_keys (rows : list Row) (data : dict string Person) :
  NoDup (keys data) ->
  NoDup (keys (fold_left load_row rows data))
  /\ forall k, k ∈ keys (fold_left load_row rows data)
       <-> k ∈ keys data \/ exists row, row ∈ rows /\ row_name row = k.
Proof.
  revert data. induction rows as [|row rows IH]; intros data Hnd; simpl.
  - split; [done|]. intros k. split; [by left|].
    intros [H|(row & Hin & _)]; [done | by apply elem_of_nil in Hin].
  - destruct (IH (load_row data row)) as [Hnd' Hin'].
    { unfold load_row. rewrite keys_dict_set. case_decide; [done|].
      apply NoDup_app. split; [done|]. split; [|apply NoDup_singleton].
      intros k Hk ->%list_elem_of_singleton. done. }
    split; [done|]. intros k. rewrite Hin'. unfold load_row at 1.
    rewrite keys_dict_set. split.
    + intros [Hk|(r & Hr & Hname)].
      * case_decide; [by left|]. apply elem_of_app in Hk as [Hk|Hk]; [by left|].
        apply list_elem_of_singleton in Hk. right. exists row. split; [left | done].
      * right. exists r. split; [by right | done].
    + intros [Hk|(r & Hr & Hname)].
      * left. case_decide; [done | apply elem_of_app; by left].
      * apply elem_of_cons in Hr as [->|Hr]; [|right; by exists r].
        left. subst k. case_decide; [done|].
        apply elem_of_app. right. by apply list_elem_of_singleton.
Qed.

(** X2. [load_data] returns a dictionary: no name is a key twice, the keys are
    exactly the names of the rows, and looking up any other name raises
    [KeyError]. *)
Theorem load_data_keys (rows : list Row) :
  NoDup (keys (load_data rows))
  /\ (forall k, k ∈ keys (load_data rows)
        <-> exists row, row ∈ rows /\ row_name row = k)
  /\ (forall k, dict_get (load_data rows) k = Raise KeyError
        <-> ~ exists row, row ∈ rows /\ row_name row = k).
Proof.
  destruct (load_rows_keys rows []) as [Hnd Hin]; [constructor|].
  assert (Hkeys : forall k, k ∈ keys (load_data rows)
                    <-> exists row, row ∈ rows /\ row_name row = k).
  { intros k. unfold load_data. rewrite Hin. split; [|by right].
    intros [H|H]; [by apply elem_of_nil in H | done]. }
  split; [exact Hnd|]. split; [exact Hkeys|].
  intros k. by rewrite dict_get_KeyError, Hkeys.
Qed.

Lemma load_rows_get (rows : list Row) (data : dict string Person) (k : string) :
  Forall (fun row => row_name row <> k) rows ->
  dict_get (fold_left load_row rows data) k = dict_get data k.
Proof.
  intros Hrows. revert data.
  induction Hrows as [|row rows Hrow _ IH]; intros data; simpl; [done|].
  rewrite IH. unfold load_row. by apply dict_get_set_ne.
Qed.

Lemma load_data_last (before after : list Row) (row : Row) :
  Forall (fun later => row_name later <> row_name row) after ->
  dict_get (load_data (before ++ row :: after)) (row_name row)
  = Ok {| name := row_name row;
          mother := or_None (row_mother row);
          father := or_None (row_father row);
          trait := parse_trait (row_trait row) |}.
Proof.
  intros Hafter. unfold load_data. rewrite fold_left_app. simpl.
  rewrite load_rows_get by done. unfold load_row. apply dict_get_set_eq.
Qed.

(** X3. The last row of a name wins: the individual that [load_data] records
    under a name is built from the last row with that name, with an empty
    mother or father field read as [None]. *)
Theorem load_data_last_row (before after : list Row) (row : Row) :
  Forall (fun later => row_name later <> row_name row) after ->
  dict_get (load_data (before ++ row :: after)) (row_name row)
  = Ok {| name := row_name row;
          mother := if decide (row_mother row = "") then None
                    else Some (row_mother row);
          father := if decide (row_father row = "") then None
                    else Some (row_father row);
          trait := if decide (row_trait row = "1") then Some true
                   else if decide (row_trait row = "0") then Some false
                   else None |}.
Proof.
  intros Hafter. by rewrite load_data_last.
Qed.

Lemma load_data_last_row_witness :
  dict_get
    (load_data
       (family_rows
        ++ {| row_name := "Harry"; row_mother := ""; row_father := "";
              row_trait := "1" |} :: []))
    "Harry"
  = Ok {| name := "Harry"; mother := None; father := None; trait := Some true |}.
Proof.
  apply (load_data_last_row family_rows []
           {| row_name := "Harry"; row_mother := ""; row_father := "";
              row_trait := "1" |}).
  constructor.
Defined.

(** X4. [load_data] validates nothing: a row with a mother and no father is
    loaded as it is, and the population it returns has a malformed
    relationship. *)
Theorem load_data_single_parent (before after : list Row) (row : Row) :
  Forall (fun later => row_name later <> row_name row) after ->
  row_mother row <> "" ->
  row_father row = "" ->
  malformed_relationship (load_data (before ++ row :: after)) = true.
Proof.
  intros Hafter Hmother Hfather.
  pose proof (load_data_last before after row Hafter) as Hget.
  unfold or_None in Hget.
  rewrite decide_False in Hget by done. rewrite (decide_True _ _ Hfather) in Hget.
  apply dict_get_Ok_elem, list_elem_of_In in Hget.
  unfold malformed_relationship. apply existsb_exists.
  eexists. split; [exact Hget|]. simpl.
  by rewrite andb_false_r.
Qed.

Lemma load_data_single_parent_witness :
  malformed_relationship
    (load_data
       (family_rows
        ++ {| row_name := "Ron"; row_mother := "Molly"; row_father := "";
              row_trait := "" |} :: []))
  = true.
Proof.
  apply (load_data_single_parent family_rows []
           {| row_name := "Ron"; row_mother := "Molly"; row_father := "";
              row_trait := "" |});
    [constructor | discriminate | reflexivity].
Defined.

(** ** [update] *)

Lemma dict_iadd_get {K : Type} `{EqDecision K} (d d' : dict K Q) (k : K) (p : Q) :
  dict_iadd d k p = Ok d' ->
  keys d' = keys d
  /\ forall k', dict_get d' k'
       = if decide (k' = k) then let* v := dict_get d k' in Ok (v + p)
         else dict_get d k'.
Proof.
  revert d'. induction d as [|[k1 v1] d IH]; intros d'; simpl; [discriminate|].
  destruct (decide (k1 = k)) as [->|Hk].
  - intros [= <-]. split; [reflexivity|]. intros k'. simpl.
    destruct (decide (k = k')) as [->|Hk'].
    + by rewrite decide_True.
    + by rewrite decide_False by congruence.
  - intros (d'' & Hd'' & [= <-])%bind_Ok. destruct (IH d'' Hd'') as [Hkeys Hget].
    split; [unfold keys in *; simpl; by rewrite Hkeys|]. intros k'. simpl.
    destruct (decide (k1 = k')) as [->|Hk']; [|apply Hget].
    by rewrite decide_False by congruence.
Qed.

Lemma dict_iadd_cases {K : Type} `{EqDecision K} (d : dict K Q) (k : K) (p : Q) :
  (k ∈ keys d /\ exists d', dict_iadd d k p = Ok d')
  \/ ((k ∉ keys d) /\ dict_iadd d k p = Raise KeyError).
Proof.
  unfold keys. induction d as [|[k1 v1] d IH]; simpl.
  - right. split; [apply not_elem_of_nil | done].
  - destruct (decide (k1 = k)) as [->|Hk].
    + left. split; [left | eauto].
    + destruct IH as [[Hin [d' ->]]|[Hout ->]]; simpl.
      * left. split; [by right | eauto].
      * right. split; [|done]. rewrite not_elem_of_cons. split; [congruence | done].
Qed.

Lemma update_person_buckets (one_gene two_genes have_trait : gset string) (p : Q)
    (person : string) (belief belief' : Belief) :
  update_person one_gene two_genes have_trait p person belief = Ok belief' ->
  (forall count, dict_get (gene_dist belief') count
     = if decide (count = get_nbr_genes (Some person) one_gene two_genes)
       then let* v := dict_get (gene_dist belief) count in Ok (v + p)
       else dict_get (gene_dist belief) count)
  /\ (forall value, dict_get (trait_dist belief') value
        = if decide (value = get_trait person have_trait)
          then let* v := dict_get (trait_dist belief) value in Ok (v + p)
          else dict_get (trait_dist belief) value).
Proof.
  unfold update_person.
  intros (gene & Hgene & (trait' & Htrait & [= <-])%bind_Ok)%bind_Ok. simpl.
  split; [by apply dict_iadd_get in Hgene as [_ ?] | by apply dict_iadd_get in Htrait as [_ ?]].
Qed.

(** X8. When [update] returns, it has kept the individuals and their order,
    added [p] to the bucket of each individual's hypothesized gene count and
    to the bucket of the hypothesized trait, and left every other bucket,
    present or missing, as it was. *)
Theorem update_buckets (probabilities probabilities' : dict string Belief)
    (one_gene two_genes have_trait : gset string) (p : Q) :
  update probabilities one_gene two_genes have_trait p = Ok probabilities' ->
  Forall2
    (fun entry entry' =>
       entry'.1 = entry.1
       /\ (forall count, dict_get (gene_dist entry'.2) count
             = if decide (count = get_nbr_genes (Some entry.1) one_gene two_genes)
               then let* v := dict_get (gene_dist entry.2) count in Ok (v + p)
               else dict_get (gene_dist entry.2) count)
       /\ (forall value, dict_get (trait_dist entry'.2) value
             = if decide (value = get_trait entry.1 have_trait)
               then let* v := dict_get (trait_dist entry.2) value in Ok (v + p)
               else dict_get (trait_dist entry.2) value))
    probabilities probabilities'.
Proof.
  revert probabilities'.
  induction probabilities as [|[person belief] rest IH]; intros probabilities'; simpl.
  - intros [= <-]. constructor.
  - intros (belief' & Hbelief & (rest' & Hrest & [= <-])%bind_Ok)%bind_Ok.
    constructor; [|by apply IH]. simpl. split; [reflexivity|].
    by apply update_person_buckets.
Qed.

Lemma update_buckets_witness :
  Forall2
    (fun entry entry' =>
       entry'.1 = entry.1
       /\ (forall count, dict_get (gene_dist entry'.2) count
             = if decide (count = get_nbr_genes (Some entry.1) {["Arthur"]} ∅)
               then let* v := dict_get (gene_dist entry.2) count in Ok (v + 0.5)
               else dict_get (gene_dist entry.2) count)
       /\ (forall value, dict_get (trait_dist entry'.2) value
             = if decide (value = get_trait entry.1 {["Arthur"]})
               then let* v := dict_get (trait_dist entry.2) value in Ok (v + 0.5)
               else dict_get (trait_dist entry.2) value))
    tally
    [("Arthur", {| gene_dist := [(2%Z, 1); (1%Z, 1 + 0.5); (0%Z, 2)];
                   trait_dist := [(true, 1 + 0.5); (false, 3)] |})].
Proof.
  apply (update_buckets tally _ {["Arthur"]} ∅ {["Arthur"]} 0.5). reflexivity.
Defined.

(** X9. [update] returns exactly when every individual has the bucket of the
    hypothesized gene count and the bucket of the hypothesized trait;
    otherwise it raises [KeyError], and it raises nothing else. *)
Theorem update_KeyError (probabilities : dict string Belief)
    (one_gene two_genes have_trait : gset string) (p : Q) :
  ((exists probabilities',
      update probabilities one_gene two_genes have_trait p = Ok probabilities')
   <-> Forall
         (fun entry =>
            get_nbr_genes (Some entry.1) one_gene two_genes ∈ keys (gene_dist entry.2)
            /\ get_trait entry.1 have_trait ∈ keys (trait_dist entry.2))
         probabilities)
  /\ (forall e, update probabilities one_gene two_genes have_trait p = Raise e ->
        e = KeyError).
Proof.
  induction probabilities as [|[person belief] rest [IHok IHerr]]; simpl.
  - split; [|discriminate]. split; [constructor | eauto].
  - rewrite Forall_cons. simpl. unfold update_person.
    destruct (dict_iadd_cases (gene_dist belief)
                (get_nbr_genes (Some person) one_gene two_genes) p)
      as [[Hg [gene ->]]|[Hg ->]]; simpl;
      [|split; [split; [by intros [? [=]] | tauto] | by intros e [= <-]]].
    destruct (dict_iadd_cases (trait_dist belief) (get_trait person have_trait) p)
      as [[Ht [trait' ->]]|[Ht ->]]; simpl;
      [|split; [split; [by intros [? [=]] | tauto] | by intros e [= <-]]].
    destruct (update rest one_gene two_genes have_trait p) as [rest'|e'] eqn:Hrest;
      simpl.
    + split; [|discriminate]. split; [|eauto].
      intros _. split; [done|]. apply IHok. eauto.
    + split; [|intros e [= <-]; by apply IHerr].
      split; [by intros [? [=]]|]. intros [_ Hall].
      apply IHok in Hall as [? [=]].
Qed.

(** ** [normalize] *)

Lemma divide_all_cases {K : Type} (d : dict K Q) (this_sum : Q) :
  (divisible_by d this_sum
   /\ divide_all d this_sum
      = Ok (map (fun bucket => (bucket.1, bucket.2 / this_sum)) d))
  \/ (~ divisible_by d this_sum /\ divide_all d this_sum = Raise ZeroDivisionError).
Proof.
  unfold divisible_by. destruct (Qeq_dec this_sum 0) as [Hz|Hz].
  - destruct d as [|[value v] d].
    + left. split; [by left | done].
    + right. split; [intros [[=]|H]; by apply H|].
      simpl. by rewrite py_div_zero.
  - left. split; [by right | by apply divide_all_Ok].
Qed.

Lemma normalize_person_cases (dists : Belief) :
  (divisible (gene_dist dists) /\ divisible (trait_dist dists)
   /\ normalize_person dists
      = Ok {| gene_dist :=
                map (fun bucket => (bucket.1, bucket.2 / dict_sum (gene_dist dists)))
                  (gene_dist dists);
              trait_dist :=
                map (fun bucket => (bucket.1, bucket.2 / dict_sum (trait_dist dists)))
                  (trait_dist dists) |})
  \/ (~ (divisible (gene_dist dists) /\ divisible (trait_dist dists))
      /\ normalize_person dists = Raise ZeroDivisionError).
Proof.
  unfold normalize_person, normalize_dist, divisible.
  destruct (divide_all_cases (gene_dist dists) (dict_sum (gene_dist dists)))
    as [[Hg ->]|[Hg ->]]; simpl; [|right; split; [tauto | done]].
  destruct (divide_all_cases (trait_dist dists) (dict_sum (trait_dist dists)))
    as [[Ht ->]|[Ht ->]]; simpl; [|right; split; [tauto | done]].
  left. by repeat split.
Qed.

(** X10. When [normalize] returns, it has kept the individuals and the buckets,
    and every bucket is the accumulated value divided by the total of its
    own table, the total being taken before any division. *)
Theorem normalize_proportions (probabilities probabilities' : dict string Belief) :
  normalize probabilities = Ok probabilities' ->
  probabilities'
  = map (fun entry =>
           (entry.1,
            {| gene_dist :=
                 map (fun bucket => (bucket.1, bucket.2 / dict_sum (gene_dist entry.2)))
                   (gene_dist entry.2);
               trait_dist :=
                 map (fun bucket => (bucket.1, bucket.2 / dict_sum (trait_dist entry.2)))
                   (trait_dist entry.2) |}))
      probabilities.
Proof.
  revert probabilities'.
  induction probabilities as [|[person dists] rest IH]; intros probabilities'; simpl.
  - by intros [= <-].
  - intros (dists' & Hdists & (rest' & Hrest & [= <-])%bind_Ok)%bind_Ok.
    rewrite <- (IH rest' Hrest).
    destruct (normalize_person_cases dists) as [(_ & _ & Hok)|[_ Herr]]; congruence.
Qed.

Lemma normalize_proportions_witness :
  [("Arthur", {| gene_dist := [(2%Z, 1 # 4); (1%Z, 1 # 4); (0%Z, 2 # 4)];
                 trait_dist := [(true, 1 # 4); (false, 3 # 4)] |})]
  = map (fun entry =>
           (entry.1,
            {| gene_dist :=
                 map (fun bucket => (bucket.1, bucket.2 / dict_sum (gene_dist entry.2)))
                   (gene_dist entry.2);
               trait_dist :=
                 map (fun bucket => (bucket.1, bucket.2 / dict_sum (trait_dist entry.2)))
                   (trait_dist entry.2) |}))
      tally.
Proof.
  apply (normalize_proportions tally). reflexivity.
Defined.

(** X11. [normalize] returns exactly when every table of every individual is
    empty or has a total different from zero; otherwise it raises
    [ZeroDivisionError], and it raises nothing else. *)
Theorem normalize_ZeroDivisionError (probabilities : dict string Belief) :
  ((exists probabilities', normalize probabilities = Ok probabilities')
   <-> Forall
         (fun entry => divisible (gene_dist entry.2) /\ divisible (trait_dist entry.2))
         probabilities)
  /\ (forall e, normalize probabilities = Raise e -> e = ZeroDivisionError).
Proof.
  induction probabilities as [|[person dists] rest [IHok IHerr]]; simpl.
  - split; [|discriminate]. split; [constructor | eauto].
  - rewrite Forall_cons. simpl.
    destruct (normalize_person_cases dists) as [(Hg & Ht & ->)|[Hno ->]]; simpl;
      [|split; [split; [by intros [? [=]] | tauto] | by intros e [= <-]]].
    destruct (normalize rest) as [rest'|e'] eqn:Hrest; simpl.
    + split; [|discriminate]. split; [|eauto].
      intros _. split; [done|]. apply IHok. eauto.
    + split; [|intros e [= <-]; by apply IHerr].
      split; [by intros [? [=]]|]. intros [_ Hall].
      apply IHok in Hall as [? [=]].
Qed.

(** ** The loops of [main] *)

Lemma for_each_filter {A S : Type} (P : A -> Prop) `{forall x, Decision (P x)}
    (l : list A) (body : S -> A -> result S) (s : S) :
  (forall s x, x ∈ l -> ~ P x -> body s x = Ok s) ->
  for_each l body s = for_each (filter P l) body s.
Proof.
  revert s. induction l as [|x l IH]; intros s Hskip; [reflexivity|].
  rewrite filter_cons. destruct (decide (P x)) as [Hx|Hx]; simpl.
  - destruct (body s x); simpl; [|reflexivity].
    apply IH. intros s' y Hy. apply Hskip. by right.
  - rewrite Hskip by (done || left). simpl.
    apply IH. intros s' y Hy. apply Hskip. by right.
Qed.

Lemma passes_admissible (people : dict string Person) (have_trait : gset string) :
  passes people have_trait = true <-> admissible people have_trait.
Proof.
  unfold passes.
  destruct (fails_evidence_cases people have_trait) as [[Hadm ->]|[Hadm ->]];
    split; done.
Qed.

Lemma trait_step_passes (people : dict string Person) (have_trait : gset string)
    (probabilities : dict string Belief) :
  trait_step people (names_of people) probabilities have_trait
  = if passes people have_trait
    then gene_loops people (names_of people) have_trait probabilities
    else Ok probabilities.
Proof.
  unfold trait_step, passes.
  by destruct (fails_evidence_cases people have_trait) as [[_ ->]|[_ ->]].
Qed.

(** The three loops perform [accumulate] once on each complete hypothesis
    of [hypotheses], in order. *)
Lemma main_loop_flat (people : dict string Person) (probabilities : dict string Belief) :
  main_loop people probabilities
  = for_each (hypotheses people)
      (fun probabilities hypothesis =>
         accumulate people hypothesis.1 hypothesis.2.1 hypothesis.2.2 probabilities)
      probabilities.
Proof.
  unfold main_loop, hypotheses, admissible_sets.
  rewrite for_each_bind.
  rewrite (for_each_filter (fun have_trait => passes people have_trait = true)).
  - apply for_each_ext. intros s have_trait [Hpass _]%list_elem_of_filter.
    rewrite trait_step_passes, Hpass, for_each_fmap. apply gene_loops_flat.
  - intros s have_trait _ Hfail. rewrite trait_step_passes.
    by destruct (passes people have_trait).
Qed.

Lemma dict_get_Ok_keys {V : Type} (d : dict string V) (k : string) (v : V) :
  dict_get d k = Ok v -> k ∈ keys d.
Proof.
  intros Hget%dict_get_Ok_elem. unfold keys.
  apply list_elem_of_fmap. by exists (k, v).
Qed.

Lemma elem_of_unknown_names (people : dict string Person) (person : string) :
  person ∈ unknown_names people
  <-> exists individual, dict_get people person = Ok individual
                         /\ trait individual = None.
Proof.
  unfold unknown_names, trait_unknown.
  rewrite elem_of_list_to_set, list_elem_of_In, filter_In, <- list_elem_of_In. split.
  - intros [_ H]. destruct (dict_get people person) as [r|]; [|done].
    exists r. by destruct (trait r).
  - intros (r & Hget & Hnone). split; [by eapply dict_get_Ok_keys|].
    by rewrite Hget, Hnone.
Qed.

Lemma elem_of_observed_true (people : dict string Person) (person : string) :
  person ∈ observed_true people
  <-> exists individual, dict_get people person = Ok individual
                         /\ trait individual = Some true.
Proof.
  unfold observed_true, observed_having.
  rewrite elem_of_list_to_set, list_elem_of_In, filter_In, <- list_elem_of_In. split.
  - intros [_ H]. destruct (dict_get people person) as [r|]; [|done].
    exists r. by destruct (trait r) as [[|]|].
  - intros (r & Hget & Hobs). split; [by eapply dict_get_Ok_keys|].
    by rewrite Hget, Hobs.
Qed.

Lemma elem_of_admissible_sets (people : dict string Person) (have_trait : gset string) :
  have_trait ∈ admissible_sets people
  <-> have_trait ⊆ names_of people /\ admissible people have_trait.
Proof.
  unfold admissible_sets.
  rewrite list_elem_of_filter, elem_of_powerset, passes_admissible. tauto.
Qed.

(** The admissible trait sets are the observed carriers of the trait
    together with any set of individuals of unknown trait. *)
Lemma admissible_sets_unknown (people : dict string Person) (have_trait : gset string) :
  have_trait ∈ admissible_sets people
  <-> exists unknown, unknown ⊆ unknown_names people
                      /\ have_trait = observed_true people ∪ unknown.
Proof.
  rewrite elem_of_admissible_sets. split.
  - intros [Hsub Hadm]. exists (have_trait ∖ observed_true people). split.
    + intros person [Hin Hnot]%elem_of_difference.
      pose proof (Hsub person Hin) as Hkey.
      apply elem_of_names_of, dict_get_keys in Hkey as [r Hget]. apply elem_of_unknown_names. exists r.
      split; [done|]. destruct (trait r) as [[|]|] eqn:Hobs; [| |done].
      * exfalso. apply Hnot, elem_of_observed_true. eauto.
      * by apply (Hadm person r false Hget Hobs) in Hin.
    + apply set_eq. intros person. rewrite elem_of_union, elem_of_difference.
      split; [intros Hin|intros [Hin|[Hin _]]; [|done]].
      * destruct (decide (person ∈ observed_true people)); tauto.
      * apply elem_of_observed_true in Hin as (r & Hget & Hobs).
        by apply (Hadm person r true Hget Hobs).
  - intros (unknown & Hunknown & ->). split.
    + intros person [Hin|Hin]%elem_of_union.
      * by apply observed_true_subset.
      * apply Hunknown, elem_of_unknown_names in Hin as (r & Hget & _).
        by eapply elem_of_names_of, dict_get_Ok_keys.
    + intros person r observed Hget Hobs. rewrite elem_of_union.
      rewrite <- (observed_true_admissible people person r observed Hget Hobs).
      split; [intros [Hin|Hin]; [done|] | by left].
      apply Hunknown, elem_of_unknown_names in Hin as (r' & Hget' & Hnone).
      congruence.
Qed.

Lemma length_admissible_sets (people : dict string Person) :
  length (admissible_sets people) = (2 ^ size (unknown_names people))%nat.
Proof.
  destruct (powerset_count (unknown_names people)) as [Hnd Hlen].
  rewrite <- Hlen.
  transitivity
    (length ((fun unknown => observed_true people ∪ unknown)
               <$> powerset (unknown_names people)));
    [|apply length_fmap].
  apply Permutation_length, NoDup_Permutation.
  - apply NoDup_filter, NoDup_powerset.
  - apply NoDup_fmap_2_strong; [|exact Hnd].
    intros x y Hx%elem_of_powerset Hy%elem_of_powerset Heq.
    assert (Hdisj : forall person, person ∈ unknown_names people ->
                      person ∉ observed_true people).
    { intros person (r & Hget & Hnone)%elem_of_unknown_names
        (r' & Hget' & Hobs)%elem_of_observed_true. congruence. }
    apply set_eq. intros person. split; intros Hin.
    + assert (H : person ∈ observed_true people ∪ y) by (rewrite <- Heq; set_solver).
      apply elem_of_union in H as [H|H]; [|done]. exfalso. by apply (Hdisj person); auto.
    + assert (H : person ∈ observed_true people ∪ x) by (rewrite Heq; set_solver).
      apply elem_of_union in H as [H|H]; [|done]. exfalso. by apply (Hdisj person); auto.
  - intros have_trait. rewrite admissible_sets_unknown, list_elem_of_fmap.
    setoid_rewrite elem_of_powerset. naive_solver.
Qed.

Lemma length_bind_const {A B : Type} (f : A -> list B) (l : list A) (n : nat) :
  (forall x, x ∈ l -> length (f x) = n) -> length (l ≫= f) = (length l * n)%nat.
Proof.
  induction l as [|x l IH]; intros Hf; csimpl; [reflexivity|].
  rewrite length_app, IH, Hf; [lia | left |].
  intros y Hy. apply Hf. by right.
Qed.

(** X12. The three loops of [main] perform lines 79-80 once on each complete
    hypothesis of [hypotheses], in order.  The hypotheses are all different;
    they are the admissible trait sets paired with the pairs of a set
    [one_gene] of names and a set [two_genes] of other names; and there are
    [2 ^ u * 3 ^ n] of them for [n] individuals, [u] with unknown trait. *)
Theorem main_loop_hypotheses (people : dict string Person)
    (probabilities : dict string Belief) :
  main_loop people probabilities
  = for_each (hypotheses people)
      (fun probabilities hypothesis =>
         let* p := joint_probability people hypothesis.2.1 hypothesis.2.2
                     hypothesis.1 in
         update probabilities hypothesis.2.1 hypothesis.2.2 hypothesis.1 p)
      probabilities
  /\ NoDup (hypotheses people)
  /\ (forall have_trait one_gene two_genes,
        (have_trait, (one_gene, two_genes)) ∈ hypotheses people
        <-> have_trait ⊆ names_of people /\ admissible people have_trait
            /\ one_gene ⊆ names_of people
            /\ two_genes ⊆ names_of people ∖ one_gene)
  /\ length (hypotheses people)
     = (2 ^ size (unknown_names people) * 3 ^ size (names_of people))%nat.
Proof.
  split; [apply main_loop_flat|]. split; [|split].
  - unfold hypotheses. apply NoDup_bind.
    + intros h h' hyp _ _ (pair & -> & _)%list_elem_of_fmap
        (pair' & [= -> _] & _)%list_elem_of_fmap.
      reflexivity.
    + intros h _. apply NoDup_fmap_2; [|apply NoDup_gene_hypotheses].
      intros pair pair' [= ->]. reflexivity.
    + apply NoDup_filter, NoDup_powerset.
  - intros have_trait one_gene two_genes. unfold hypotheses.
    rewrite list_elem_of_bind. split.
    + intros (h & (pair & [= -> <-] & Hpair)%list_elem_of_fmap & Hh).
      apply elem_of_admissible_sets in Hh. apply elem_of_gene_hypotheses in Hpair.
      tauto.
    + intros (Hsub & Hadm & Hone & Htwo). exists have_trait. split.
      * apply list_elem_of_fmap. exists (one_gene, two_genes). split; [done|].
        by apply elem_of_gene_hypotheses.
      * by apply elem_of_admissible_sets.
  - unfold hypotheses.
    rewrite (length_bind_const _ _ (3 ^ size (names_of people))).
    + by rewrite length_admissible_sets.
    + intros h _. by rewrite length_fmap, length_gene_hypotheses.
Qed.

(** ** What the loops accumulate *)

Lemma Qsum_snoc (l : list Q) (v : Q) : Qsum (l ++ [v]) == Qsum l + v.
Proof.
  unfold Qsum. induction l as [|w l IH]; simpl; [ring|]. rewrite IH. ring.
Qed.

Lemma gene_mass_snoc (people : dict string Person)
    (hs : list (gset string * (gset string * gset string)))
    (hypothesis : gset string * (gset string * gset string))
    (person : string) (count : Z) :
  gene_mass people (hs ++ [hypothesis]) person count
  == gene_mass people hs person count
     + (if decide (get_nbr_genes (Some person) hypothesis.2.1 hypothesis.2.2 = count)
        then joint_value people hypothesis else 0).
Proof. unfold gene_mass. rewrite map_app. simpl. apply Qsum_snoc. Qed.

Lemma trait_mass_snoc (people : dict string Person)
    (hs : list (gset string * (gset string * gset string)))
    (hypothesis : gset string * (gset string * gset string))
    (person : string) (value : bool) :
  trait_mass people (hs ++ [hypothesis]) person value
  == trait_mass people hs person value
     + (if decide (get_trait person hypothesis.1 = value)
        then joint_value people hypothesis else 0).
Proof. unfold trait_mass. rewrite map_app. simpl. apply Qsum_snoc. Qed.

(** A belief whose five buckets hold the masses of the hypotheses [hs]. *)
Lemma update_person_marginals (people : dict string Person)
    (hs : list (gset string * (gset string * gset string)))
    (hypothesis : gset string * (gset string * gset string))
    (person : string) (g2 g1 g0 t1 t0 : Q) :
  g2 == gene_mass people hs person 2 ->
  g1 == gene_mass people hs person 1 ->
  g0 == gene_mass people hs person 0 ->
  t1 == trait_mass people hs person true ->
  t0 == trait_mass people hs person false ->
  exists g2' g1' g0' t1' t0',
    update_person hypothesis.2.1 hypothesis.2.2 hypothesis.1
      (joint_value people hypothesis) person
      {| gene_dist := [(2%Z, g2); (1%Z, g1); (0%Z, g0)];
         trait_dist := [(true, t1); (false, t0)] |}
    = Ok {| gene_dist := [(2%Z, g2'); (1%Z, g1'); (0%Z, g0')];
            trait_dist := [(true, t1'); (false, t0')] |}
    /\ g2' == gene_mass people (hs ++ [hypothesis]) person 2
    /\ g1' == gene_mass people (hs ++ [hypothesis]) person 1
    /\ g0' == gene_mass people (hs ++ [hypothesis]) person 0
    /\ t1' == trait_mass people (hs ++ [hypothesis]) person true
    /\ t0' == trait_mass people (hs ++ [hypothesis]) person false.
Proof.
  intros H2 H1 H0 Ht1 Ht0.
  pose proof (gene_mass_snoc people hs hypothesis person 2) as E2.
  pose proof (gene_mass_snoc people hs hypothesis person 1) as E1.
  pose proof (gene_mass_snoc people hs hypothesis person 0) as E0.
  pose proof (trait_mass_snoc people hs hypothesis person true) as Et1.
  pose proof (trait_mass_snoc people hs hypothesis person false) as Et0.
  unfold update_person.
  destruct (get_nbr_genes_range (Some person) hypothesis.2.1 hypothesis.2.2)
    as [Hn|[Hn|Hn]];
    rewrite Hn in *; destruct (get_trait person hypothesis.1);
    repeat case_decide; try done;
    (do 5 eexists; split; [reflexivity|]); repeat split; lra.
Qed.

Lemma accumulate_joint_value (people : dict string Person)
    (hypothesis : gset string * (gset string * gset string))
    (probabilities : dict string Belief) :
  accumulate people hypothesis.1 hypothesis.2.1 hypothesis.2.2 probabilities
  = update probabilities hypothesis.2.1 hypothesis.2.2 hypothesis.1
      (joint_value people hypothesis)
  /\ 0 < joint_value people hypothesis.
Proof.
  unfold accumulate, joint_value.
  by destruct (joint_probability_pos people hypothesis.2.1 hypothesis.2.2 hypothesis.1)
    as (p & -> & Hp).
Qed.

Lemma update_marginals (people : dict string Person)
    (hs : list (gset string * (gset string * gset string)))
    (hypothesis : gset string * (gset string * gset string))
    (probabilities : dict string Belief) :
  Forall (holds_masses people hs) probabilities ->
  exists probabilities',
    update probabilities hypothesis.2.1 hypothesis.2.2 hypothesis.1
      (joint_value people hypothesis) = Ok probabilities'
    /\ keys probabilities' = keys probabilities
    /\ Forall (holds_masses people (hs ++ [hypothesis])) probabilities'.
Proof.
  induction 1 as [|[person belief] rest Hbelief _ IH]; simpl.
  - exists []. by repeat split.
  - destruct Hbelief as (g2 & g1 & g0 & t1 & t0 & Hshape & H2 & H1 & H0 & Ht1 & Ht0).
    simpl in *. subst belief.
    destruct (update_person_marginals people hs hypothesis person g2 g1 g0 t1 t0)
      as (g2' & g1' & g0' & t1' & t0' & -> & H'); [done..|].
    destruct IH as (rest' & -> & Hkeys & Hrest). simpl.
    eexists. split; [reflexivity|]. split; [simpl; by rewrite Hkeys|].
    constructor; [|exact Hrest]. by exists g2', g1', g0', t1', t0'.
Qed.

Lemma for_each_marginals (people : dict string Person)
    (hs : list (gset string * (gset string * gset string)))
    (probabilities : dict string Belief) :
  Forall (holds_masses people []) probabilities ->
  exists probabilities',
    for_each hs
      (fun probabilities hypothesis =>
         accumulate people hypothesis.1 hypothesis.2.1 hypothesis.2.2 probabilities)
      probabilities = Ok probabilities'
    /\ keys probabilities' = keys probabilities
    /\ Forall (holds_masses people hs) probabilities'.
Proof.
  intros Hinit. induction hs as [|hypothesis hs IH] using rev_ind.
  - exists probabilities. by repeat split.
  - destruct IH as (middle & Hrun & Hkeys & Hmiddle).
    rewrite for_each_app, Hrun. simpl.
    destruct (accumulate_joint_value people hypothesis middle) as [-> _].
    destruct (update_marginals people hs hypothesis middle Hmiddle)
      as (probabilities' & -> & Hkeys' & Hall).
    exists probabilities'. simpl. split; [done|]. split; [congruence | done].
Qed.

Lemma init_probabilities_masses (people : dict string Person) :
  keys (init_probabilities people) = keys people
  /\ Forall (holds_masses people []) (init_probabilities people).
Proof.
  split; [apply init_probabilities_accumulated|].
  unfold init_probabilities. apply Forall_fmap, Forall_forall. intros person _.
  exists 0, 0, 0, 0, 0. by repeat split.
Qed.

Lemma gene_mass_total (people : dict string Person)
    (hs : list (gset string * (gset string * gset string))) (person : string) :
  gene_mass people hs person 2 + gene_mass people hs person 1
  + gene_mass people hs person 0 == total_mass people hs.
Proof.
  unfold gene_mass, total_mass, Qsum.
  induction hs as [|hypothesis hs IH]; simpl; [ring|]. rewrite <- IH.
  destruct (get_nbr_genes_range (Some person) hypothesis.2.1 hypothesis.2.2)
    as [Hn|[Hn|Hn]];
    rewrite Hn; repeat case_decide; try done; ring.
Qed.

Lemma trait_mass_total (people : dict string Person)
    (hs : list (gset string * (gset string * gset string))) (person : string) :
  trait_mass people hs person true + trait_mass people hs person false
  == total_mass people hs.
Proof.
  unfold trait_mass, total_mass, Qsum.
  induction hs as [|hypothesis hs IH]; simpl; [ring|]. rewrite <- IH.
  destruct (get_trait person hypothesis.1); repeat case_decide; try done; ring.
Qed.

Lemma total_mass_pos (people : dict string Person) :
  0 < total_mass people (hypotheses people).
Proof.
  assert (Hin : (observed_true people, (∅, ∅)) ∈ hypotheses people).
  { unfold hypotheses. apply list_elem_of_bind. exists (observed_true people). split.
    - apply list_elem_of_fmap. exists (∅, ∅). split; [done|].
      apply elem_of_gene_hypotheses. set_solver.
    - apply elem_of_admissible_sets.
      split; [apply observed_true_subset | apply observed_true_admissible]. }
  unfold total_mass. revert Hin. generalize (hypotheses people). intros hs Hin.
  assert (Hnonneg : forall l, 0 <= Qsum (map (joint_value people) l)).
  { induction l as [|h l IH]; simpl; [discriminate|].
    pose proof (proj2 (accumulate_joint_value people h [])). lra. }
  induction hs as [|h hs IH]; [by apply elem_of_nil in Hin|]. simpl.
  pose proof (proj2 (accumulate_joint_value people h [])).
  pose proof (Hnonneg hs). lra.
Qed.

(** X13. After the loops of [main], every bucket holds the sum of the joint
    probabilities of the enumerated hypotheses that give the individual
    that gene count, respectively that trait value; the two tables of every
    individual have the same positive total, the sum over all hypotheses. *)
Theorem main_loop_marginals (people : dict string Person) :
  exists probabilities,
    main_loop people (init_probabilities people) = Ok probabilities
    /\ keys probabilities = keys people
    /\ 0 < total_mass people (hypotheses people)
    /\ Forall
         (fun entry =>
            (forall count, count ∈ [2%Z; 1%Z; 0%Z] ->
               exists v, dict_get (gene_dist entry.2) count = Ok v
                         /\ v == gene_mass people (hypotheses people) entry.1 count)
            /\ (forall value,
                  exists v, dict_get (trait_dist entry.2) value = Ok v
                            /\ v == trait_mass people (hypotheses people) entry.1 value)
            /\ dict_sum (gene_dist entry.2) == total_mass people (hypotheses people)
            /\ dict_sum (trait_dist entry.2) == total_mass people (hypotheses people))
         probabilities.
Proof.
  destruct (init_probabilities_masses people) as [Hkeys0 Hinit].
  destruct (for_each_marginals people (hypotheses people) _ Hinit)
    as (probabilities & Hrun & Hkeys & Hall).
  exists probabilities. rewrite main_loop_flat. split; [exact Hrun|].
  split; [congruence|]. split; [apply total_mass_pos|].
  eapply Forall_impl; [exact Hall|].
  intros [person belief] (g2 & g1 & g0 & t1 & t0 & Hshape & H2 & H1 & H0 & Ht1 & Ht0).
  simpl in *. subst belief. simpl. split; [|split; [|split]].
  - intros count Hcount. rewrite !elem_of_cons, elem_of_nil in Hcount.
    destruct Hcount as [->|[->|[->|[]]]]; eexists; (split; [reflexivity|done]).
  - intros [|]; eexists; (split; [reflexivity|done]).
  - unfold dict_sum. simpl. rewrite <- (gene_mass_total people _ person). lra.
  - unfold dict_sum. simpl. rewrite <- (trait_mass_total people _ person). lra.
Qed.

Lemma normalize_masses (people : dict string Person)
    (hs : list (gset string * (gset string * gset string)))
    (probabilities : dict string Belief) :
  0 < total_mass people hs ->
  Forall (holds_masses people hs) probabilities ->
  exists probabilities',
    normalize probabilities = Ok probabilities'
    /\ keys probabilities' = keys probabilities
    /\ Forall
         (fun entry =>
            (forall count, count ∈ [2%Z; 1%Z; 0%Z] ->
               exists v, dict_get (gene_dist entry.2) count = Ok v
                         /\ v == gene_mass people hs entry.1 count
                               / total_mass people hs)
            /\ (forall value,
                  exists v, dict_get (trait_dist entry.2) value = Ok v
                            /\ v == trait_mass people hs entry.1 value
                                  / total_mass people hs))
         probabilities'.
Proof.
  intros Htotal. induction 1 as [|[person belief] rest Hbelief _ IH]; simpl.
  - exists []. by repeat split.
  - destruct Hbelief as (g2 & g1 & g0 & t1 & t0 & Hshape & H2 & H1 & H0 & Ht1 & Ht0).
    simpl in *. subst belief.
    destruct IH as (rest' & -> & Hkeys & Hrest).
    unfold normalize_person, normalize_dist. simpl gene_dist. simpl trait_dist.
    assert (Hgs : dict_sum [(2%Z, g2); (1%Z, g1); (0%Z, g0)] == total_mass people hs).
    { unfold dict_sum. simpl. rewrite <- (gene_mass_total people hs person). lra. }
    assert (Hts : dict_sum [(true, t1); (false, t0)] == total_mass people hs).
    { unfold dict_sum. simpl. rewrite <- (trait_mass_total people hs person). lra. }
    revert Hgs Hts.
    generalize (dict_sum [(2%Z, g2); (1%Z, g1); (0%Z, g0)]).
    generalize (dict_sum [(true, t1); (false, t0)]).
    intros ts gs Hgs Hts.
    rewrite !divide_all_Ok by lra. simpl.
    eexists. split; [reflexivity|]. split; [simpl; by rewrite Hkeys|].
    constructor; [|exact Hrest]. simpl. split.
    + intros count Hcount. rewrite !elem_of_cons, elem_of_nil in Hcount.
      destruct Hcount as [->|[->|[->|[]]]]; eexists;
        (split; [reflexivity|]); [rewrite H2|rewrite H1|rewrite H0];
        by rewrite Hgs.
    + intros [|]; eexists; (split; [reflexivity|]); [rewrite Ht1|rewrite Ht0];
        by rewrite Hts.
Qed.

(** X14. What [main] computes: for every individual, the normalized bucket of a
    gene count (of a trait value) is the total joint probability of the
    enumerated hypotheses that give the individual that count (that value),
    divided by the total joint probability of all enumerated hypotheses. *)
Theorem infer_posterior (people : dict string Person) :
  exists probabilities,
    infer people = Ok probabilities
    /\ keys probabilities = keys people
    /\ Forall
         (fun entry =>
            (forall count, count ∈ [2%Z; 1%Z; 0%Z] ->
               exists v, dict_get (gene_dist entry.2) count = Ok v
                         /\ v == gene_mass people (hypotheses people) entry.1 count
                               / total_mass people (hypotheses people))
            /\ (forall value,
                  exists v, dict_get (trait_dist entry.2) value = Ok v
                            /\ v == trait_mass people (hypotheses people) entry.1 value
                                  / total_mass people (hypotheses people)))
         probabilities.
Proof.
  destruct (init_probabilities_masses people) as [Hkeys0 Hinit].
  destruct (for_each_marginals people (hypotheses people) _ Hinit)
    as (accumulated & Hrun & Hkeys & Hall).
  destruct (normalize_masses people (hypotheses people) accumulated
              (total_mass_pos people) Hall)
    as (probabilities & Hnorm & Hkeys' & Hall').
  exists probabilities. unfold infer. rewrite main_loop_flat, Hrun. simpl.
  split; [exact Hnorm|]. split; [congruence | exact Hall'].
Qed.

(** ** Evidence that contradicts itself *)





